(** * VRAM resource manager: a shallow embedding of
      [vram-system/server/resource_manager.py] and the properties of its
      operations (store, get, delete, list, stats, optimize).

    Conventions of the embedding.
    - A Python [int] is a [Z]; [bytes] is a [list byte]; a [str] used as an
      identifier, category or timestamp is a [string]; the text payload given
      to [store_resource] is a list of Unicode code points, so that its UTF-8
      encoding is computed and not assumed.
    - A Python [dict] is an association list in insertion order (the order is
      observable through the stable sorts of [list_resources] and
      [optimize_storage]).
    - The file system is a map from path strings to file contents, on a POSIX
      system with case sensitive names; the paths are built as
      [os.path.join] builds them.  Two identifiers that are plain file names
      (no separator in them) have two different payload files; where a
      property needs that, it says so ([plain_name]).
    - Every statement that may raise inside a [try] block is given an outcome
      chosen by the environment ([env]); the [except] branch of the source is
      the branch taken on a failing outcome.
    - One call of an operation reads the clock once: every [datetime.now()]
      of the call gives the same instant.
    - [logging] calls have no effect on the state and are left out. *)

From Stdlib Require Import ZArith NArith List Bool Lia.
From Stdlib.Strings Require Import String Ascii Byte.
From Stdlib Require Import Sorted Permutation.
Import ListNotations.

Local Open Scope string_scope.
Local Open Scope list_scope.
Local Open Scope Z_scope.

Definition bytes := list byte.

(** ** Python primitives *)

Module PyStr.

(** [s1 <= s2] on [str]: lexicographic on code points. *)
Definition le (s1 s2 : string) : bool := String.leb s1 s2.

(** Truthiness of a [str]: the empty string is falsy. *)
Definition truthy (s : string) : bool := negb (String.eqb s "").

Definition byte_of_N (n : N) : byte :=
  match Byte.of_N n with Some b => b | None => x00 end.

(** [chr(c).encode('utf-8')]; [None] is [UnicodeEncodeError] (a lone
    surrogate).  Code points above U+10FFFF do not exist in a [str]. *)
Definition utf8_encode_char (c : N) : option bytes :=
  (if c <? 128 then Some [byte_of_N c]
   else if c <? 2048 then
     Some [byte_of_N (192 + c / 64); byte_of_N (128 + c mod 64)]
   else if c <? 65536 then
     if (55296 <=? c) && (c <=? 57343) then None
     else Some [byte_of_N (224 + c / 4096);
                byte_of_N (128 + (c / 64) mod 64);
                byte_of_N (128 + c mod 64)]
   else if c <? 1114112 then
     Some [byte_of_N (240 + c / 262144);
           byte_of_N (128 + (c / 4096) mod 64);
           byte_of_N (128 + (c / 64) mod 64);
           byte_of_N (128 + c mod 64)]
   else None)%N.

(** [s.encode('utf-8')] *)
Fixpoint encode_utf8 (s : list N) : option bytes :=
  match s with
  | [] => Some []
  | c :: s' =>
      match utf8_encode_char c, encode_utf8 s' with
      | Some b, Some bs => Some (b ++ bs)
      | _, _ => None
      end
  end.

End PyStr.

Module PyList.
Section Ops.
Context {A : Type}.

(** Index normalisation of a slice bound: a negative bound counts from the
    end, and every bound is clamped to [0, len]. *)
Definition slice_index (len i : Z) : Z :=
  if i <? 0 then Z.max 0 (i + len) else Z.min i len.

(** [l[start:stop]] *)
Definition slice (l : list A) (start stop : Z) : list A :=
  let len := Z.of_nat (List.length l) in
  let s := slice_index len start in
  let e := slice_index len stop in
  firstn (Z.to_nat (e - s)) (skipn (Z.to_nat s) l).

(** [l.sort(key=...)] is a stable sort.  [before x y] holds when the key of
    [x] is not after the key of [y] in the requested direction; an element
    is inserted in front of the elements it is not after, which keeps the
    original order among equal keys. *)
Variable before : A -> A -> bool.

Fixpoint insert (x : A) (l : list A) : list A :=
  match l with
  | [] => [x]
  | y :: l' => if before x y then x :: l else y :: insert x l'
  end.

Fixpoint sort (l : list A) : list A :=
  match l with
  | [] => []
  | x :: l' => insert x (sort l')
  end.

(** [x] may stand in front of [y] in a sorted list. *)
Definition precedes (x y : A) : Prop := before x y = true.

End Ops.
End PyList.

Module PyDict.
Section Ops.
Context {V : Type}.

Definition dict := list (string * V).

(** [d.get(k)] / [d[k]] *)
Fixpoint get (k : string) (d : dict) : option V :=
  match d with
  | [] => None
  | (k', v) :: d' => if String.eqb k' k then Some v else get k d'
  end.

(** [d[k] = v]: an existing key keeps its position, a new key goes last. *)
Fixpoint set (k : string) (v : V) (d : dict) : dict :=
  match d with
  | [] => [(k, v)]
  | (k', v') :: d' =>
      if String.eqb k' k then (k, v) :: d' else (k', v') :: set k v d'
  end.

(** [del d[k]] *)
Fixpoint del (k : string) (d : dict) : dict :=
  match d with
  | [] => []
  | (k', v') :: d' =>
      if String.eqb k' k then del k d' else (k', v') :: del k d'
  end.

End Ops.
Arguments dict : clear implicits.
End PyDict.

Module PyPath.

(** No separator in [name]: joined to a directory, it names a file of that
    directory. *)
Definition plain (name : string) : bool :=
  negb (existsb (Ascii.eqb "/") (list_ascii_of_string name)).

(** [p.startswith('/')] *)
Definition isabs (p : string) : bool :=
  match p with
  | String c _ => Ascii.eqb c "/"
  | EmptyString => false
  end.

(** [p.endswith('/')] *)
Fixpoint ends_with_sep (p : string) : bool :=
  match p with
  | EmptyString => false
  | String c EmptyString => Ascii.eqb c "/"
  | String _ p' => ends_with_sep p'
  end.

(** [os.path.join(a, b)] of [posixpath]: an absolute [b] replaces [a]. *)
Definition join (a b : string) : string :=
  if isabs b then b
  else
    match a with
    | EmptyString => b
    | _ => if ends_with_sep a then (a ++ b)%string else (a ++ "/" ++ b)%string
    end.

End PyPath.

(** The identifier is a plain file name. *)
Definition plain_name (id : string) : Prop := PyPath.plain id = true.

Definition default {A : Type} (d : A) (o : option A) : A :=
  match o with Some a => a | None => d end.


(** ** Library functions called by the manager

    [hashlib.sha256(data).hexdigest()], [datetime.isoformat()] and
    [datetime.fromisoformat(s)] are taken as an interface.  A naive
    [datetime] is its number of microseconds since 1970-01-01T00:00:00;
    [fromisoformat] answers [None] where Python raises [ValueError]. *)

Class PyLib := {
  sha256_hexdigest : bytes -> string;
  isoformat : Z -> string;
  fromisoformat : string -> option Z
}.

(** ** Data model *)

(** One entry of [self.metadata['resources']].  A field is [None] when the
    key is absent from the entry (the source reads every field with
    [.get(key, default)]); [store_resource] writes all eight. *)
Record meta := mkMeta {
  size : option Z;
  hash : option string;
  category : option string;
  priority : option Z;
  created : option string;
  last_accessed : option string;
  access_count : option Z;
  version : option Z
}.

(** The [content] argument of [store_resource]: a [str], a [bytes], or any
    other object, given by what [pickle.dumps] makes of it ([None]: it
    raises). *)
Inductive content :=
| Text (s : list N)
| Binary (b : bytes)
| Object (pickled : option bytes).

(** Outcome of [with open(path, 'w') as f: <write>]: the block completes;
    [open] raises and the file is untouched; or [open] has created or
    truncated the file and the write raises after [n] bytes. *)
Inductive io := Done | Refused | Aborted (n : nat).

(** What the environment decides during one call of an operation. *)
Record env := mkEnv {
  now : Z;                        (* datetime.now() *)
  payload_write : io;             (* open(file_path, 'wb') ... f.write(data) *)
  payload_read_fails : bool;      (* open(file_path, 'rb') ... f.read() *)
  payload_remove_fails : bool;    (* os.remove(file_path) raises *)
  ledger_write : io               (* open(metadata_file, 'w') ... json.dump *)
}.

(** The manager object together with the directory it owns. *)
Record state := mkState {
  resource_dir : string;               (* self.resource_dir *)
  resources : PyDict.dict meta;        (* self.metadata['resources'] *)
  last_updated : string;               (* self.metadata['last_updated'] *)
  files : string -> option bytes;      (* payload files, by path *)
  metadata_file : option (PyDict.dict meta);
    (* the resources saved in metadata.json; None: absent or unreadable *)
  metadata_file_updated : string
    (* the ['last_updated'] saved with them *)
}.

Definition with_resources (st : state) (r : PyDict.dict meta) : state :=
  mkState (resource_dir st) r (last_updated st) (files st) (metadata_file st)
          (metadata_file_updated st).

Definition with_files (st : state) (f : string -> option bytes) : state :=
  mkState (resource_dir st) (resources st) (last_updated st) f
          (metadata_file st) (metadata_file_updated st).

Definition fs_write (fs : string -> option bytes) (p : string) (d : bytes)
  : string -> option bytes :=
  fun q => if String.eqb q p then Some d else fs q.

Definition fs_remove (fs : string -> option bytes) (p : string)
  : string -> option bytes :=
  fun q => if String.eqb q p then None else fs q.

(** Entry of the list returned by [list_resources]. *)
Record resource_info := mkInfo {
  ri_resource_id : string;
  ri_size : Z;
  ri_category : string;
  ri_priority : Z;
  ri_created : option string;
  ri_last_accessed : option string;
  ri_access_count : Z;
  ri_version : Z
}.

(** The tuple [(resource_id, score, size, priority)] of [optimize_storage];
    the entries of ['deleted_resources'] carry the same four values. *)
Record candidate := mkCand {
  cand_resource_id : string;
  cand_score : Z;
  cand_size : Z;
  cand_priority : Z
}.

(** Result of [optimize_storage] (the derived ['freed_space_mb'] is left
    out). *)
Inductive report :=
| no_optimization_needed (current_size max_size : Z)
| optimization_completed (deleted_count freed_space_bytes final_size_bytes : Z)
                         (deleted_resources : list candidate)
| optimization_failed.

(** Result of [get_usage_stats] (['total_size_mb'] and ['disk_usage'], which
    do not depend on the ledger alone, are left out). *)
Record usage_stats := mkStats {
  total_resources : Z;
  total_size_bytes : Z;
  categories : PyDict.dict (Z * Z);          (* category -> (count, size) *)
  most_accessed : list (string * Z)
}.

(** The quotient of two ints under true division is the float nearest to
    the exact quotient (ties to even), and [OverflowError] when that is
    beyond the floats: at [2^1024 - 2^970] in absolute value. *)
Definition float_overflow (a b : Z) : bool :=
  (2 ^ 1024 - 2 ^ 970) * Z.abs b <=? Z.abs a.

(** [a / b < 1.5] for two ints; [None] is [ZeroDivisionError] or
    [OverflowError].  The floats next to 1.5 are [1.5 - 2^-52] and 1.5, and
    their midpoint rounds to 1.5: the rounded quotient is below 1.5 exactly
    when the exact one is below [1.5 - 2^-53]. *)
Definition div_lt_1_5 (a b : Z) : option bool :=
  if b =? 0 then None
  else if float_overflow a b then None
  else if 0 <? b then Some (2 ^ 53 * a <? (3 * 2 ^ 52 - 1) * b)
  else Some ((3 * 2 ^ 52 - 1) * b <? 2 ^ 53 * a).

(** [(t1 - t0).days]: a [timedelta] is normalised so that [days] is the
    floor of the difference in days. *)
Definition timedelta_days (t1 t0 : Z) : Z := (t1 - t0) / 86400000000.

(** ** The resource manager *)

Section Manager.
Context {lib : PyLib}.

(** [_load_metadata]: the saved ledger if the document exists and parses, an
    empty ledger otherwise. *)
Definition _load_metadata (doc : option (PyDict.dict meta))
  : PyDict.dict meta :=
  match doc with
  | Some d => d
  | None => []
  end.

(** [__init__], for a directory holding [fs] and the document [doc], saved
    with the ['last_updated'] [doc_updated]: a loaded document comes with
    its own stamp, a new ledger is stamped now. *)
Definition init (E : env) (dir : string) (fs : string -> option bytes)
  (doc : option (PyDict.dict meta)) (doc_updated : string) : state :=
  let stamp :=
    match doc with
    | Some _ => doc_updated
    | None => isoformat (now E)
    end in
  mkState dir (_load_metadata doc) stamp fs doc doc_updated.

(** [_save_metadata]: stamps the ledger, then writes the document.  It never
    raises: a failure is logged and dropped. *)
Definition _save_metadata (E : env) (st : state) : state :=
  let stamp := isoformat (now E) in
  mkState (resource_dir st) (resources st) stamp (files st)
          match ledger_write E with
          | Done => Some (resources st)
          | Refused => metadata_file st
          | Aborted _ => None
          end
          match ledger_write E with
          | Done => stamp
          | Refused | Aborted _ => metadata_file_updated st
          end.

(** [_get_file_path] *)
Definition _get_file_path (st : state) (resource_id : string) : string :=
  PyPath.join (resource_dir st) (resource_id ++ ".dat")%string.

(** [_calculate_hash] *)
Definition _calculate_hash (data : bytes) : string := sha256_hexdigest data.

(** "Convert content to bytes"; [None] when the conversion raises. *)
Definition to_bytes (c : content) : option bytes :=
  match c with
  | Text s => PyStr.encode_utf8 s
  | Binary b => Some b
  | Object pickled => pickled
  end.

(** [store_resource] *)
Definition store_resource (E : env) (st : state) (resource_id : string)
  (c : content) (category : string) (priority : Z) : bool * state :=
  match to_bytes c with
  | None => (false, st)
  | Some data =>
      let file_path := _get_file_path st resource_id in
      match payload_write E with
      | Refused => (false, st)
      | Aborted n =>
          (false, with_files st (fs_write (files st) file_path (firstn n data)))
      | Done =>
          let st1 := with_files st (fs_write (files st) file_path data) in
          let record :=
            mkMeta (Some (Z.of_nat (List.length data)))
                   (Some (_calculate_hash data))
                   (Some category)
                   (Some priority)
                   (Some (isoformat (now E)))
                   (Some (isoformat (now E)))
                   (Some 0)
                   (Some 1) in
          let st2 :=
            with_resources st1
              (PyDict.set resource_id record (resources st1)) in
          (true, _save_metadata E st2)
      end
  end.

(** The record written by a store of [data] at the time of [E]. *)
Definition fresh_record (E : env) (data : bytes) (category : string)
  (priority : Z) : meta :=
  mkMeta (Some (Z.of_nat (List.length data))) (Some (sha256_hexdigest data))
         (Some category) (Some priority)
         (Some (isoformat (now E))) (Some (isoformat (now E)))
         (Some 0) (Some 1).

(** [get_resource] *)
Definition get_resource (E : env) (st : state) (resource_id : string)
  : option bytes * state :=
  match PyDict.get resource_id (resources st) with
  | None => (None, st)
  | Some m =>
      match files st (_get_file_path st resource_id) with
      | None =>
          (* Clean up orphaned metadata *)
          (None,
           _save_metadata E
             (with_resources st (PyDict.del resource_id (resources st))))
      | Some data =>
          if payload_read_fails E then (None, st)
          else
            (* Update access information *)
            let m1 :=
              mkMeta (size m) (hash m) (category m) (priority m) (created m)
                     (Some (isoformat (now E))) (access_count m) (version m) in
            let st1 :=
              with_resources st (PyDict.set resource_id m1 (resources st)) in
            match access_count m with
            | None => (None, st1)       (* KeyError on [+= 1] *)
            | Some n =>
                let m2 :=
                  mkMeta (size m) (hash m) (category m) (priority m) (created m)
                         (Some (isoformat (now E))) (Some (n + 1))
                         (version m) in
                (Some data,
                 _save_metadata E
                   (with_resources st1
                      (PyDict.set resource_id m2 (resources st1))))
            end
      end
  end.

(** [delete_resource] *)
Definition delete_resource (E : env) (st : state) (resource_id : string)
  : bool * state :=
  match PyDict.get resource_id (resources st) with
  | None => (false, st)
  | Some _ =>
      let file_path := _get_file_path st resource_id in
      let removed :=
        match files st file_path with
        | Some _ =>
            if payload_remove_fails E then None
            else Some (with_files st (fs_remove (files st) file_path))
        | None => Some st
        end in
      match removed with
      | None => (false, st)
      | Some st1 =>
          (true,
           _save_metadata E
             (with_resources st1 (PyDict.del resource_id (resources st1))))
      end
  end.

(** [category and metadata.get('category') != category] *)
Definition category_mismatch (wanted : option string) (m : meta) : bool :=
  match wanted with
  | Some c =>
      PyStr.truthy c &&
      negb (match category m with
            | Some c' => String.eqb c' c
            | None => false
            end)
  | None => false
  end.

(** [max_size and metadata.get('size', 0) > max_size] *)
Definition size_exceeds (max_size : option Z) (m : meta) : bool :=
  match max_size with
  | Some n => negb (n =? 0) && (n <? default 0 (size m))
  | None => false
  end.

Definition resource_info_of (item : string * meta) : resource_info :=
  let (resource_id, metadata) := item in
  mkInfo resource_id
         (default 0 (size metadata))
         (default "unknown" (category metadata))
         (default 3 (priority metadata))
         (created metadata)
         (last_accessed metadata)
         (default 0 (access_count metadata))
         (default 1 (version metadata)).

(** [x['last_accessed'] or '1970-01-01'] *)
Definition recency_key (x : resource_info) : string :=
  match ri_last_accessed x with
  | Some s => if PyStr.truthy s then s else "1970-01-01"
  | None => "1970-01-01"
  end.

(** Order of [sort(key=recency_key, reverse=True)]. *)
Definition more_recent (x y : resource_info) : bool :=
  PyStr.le (recency_key y) (recency_key x).

(** The loop of [list_resources] that applies the filters. *)
Definition listed (category : option string) (max_size : option Z)
  (d : PyDict.dict meta) : list resource_info :=
  map resource_info_of
      (filter (fun item =>
                 negb (category_mismatch category (snd item)) &&
                 negb (size_exceeds max_size (snd item)))
              d).

(** [list_resources] *)
Definition list_resources (st : state) (category : option string)
  (max_size : option Z) (page per_page : Z) : list resource_info :=
  let found := listed category max_size (resources st) in
  let sorted := PyList.sort more_recent found in
  let start_idx := (page - 1) * per_page in
  let end_idx := start_idx + per_page in
  PyList.slice sorted start_idx end_idx.

(** [sum(meta.get('size', 0) for meta in resources.values())] *)
Definition total_size (d : PyDict.dict meta) : Z :=
  fold_right (fun item acc => default 0 (size (snd item)) + acc) 0 d.

(** The category breakdown loop of [get_usage_stats]. *)
Definition count_category (acc : PyDict.dict (Z * Z)) (item : string * meta)
  : PyDict.dict (Z * Z) :=
  let cat := default "unknown" (category (snd item)) in
  let (count, bytes_used) := default (0, 0) (PyDict.get cat acc) in
  PyDict.set cat (count + 1, bytes_used + default 0 (size (snd item))) acc.

(** [get_usage_stats] *)
Definition get_usage_stats (st : state) : usage_stats :=
  mkStats
    (Z.of_nat (List.length (resources st)))
    (total_size (resources st))
    (fold_left count_category (resources st) [])
    (firstn 10
       (PyList.sort (fun x y : string * Z => snd y <=? snd x)
          (map (fun item => (fst item, default 0 (access_count (snd item))))
               (resources st)))).

(** The body of the scoring loop of [optimize_storage] for one record;
    [None] when [fromisoformat] raises. *)
Definition evaluate (t_now : Z) (item : string * meta) : option candidate :=
  let (resource_id, m) := item in
  let priority := default 3 (priority m) in
  match fromisoformat (default "1970-01-01T00:00:00" (last_accessed m)) with
  | None => None
  | Some accessed =>
      let access_count := default 0 (access_count m) in
      let size := default 0 (size m) in
      let age_days := timedelta_days t_now accessed in
      let score := access_count * 10 + (5 - priority) * 100 - age_days in
      Some (mkCand resource_id score size priority)
  end.

Fixpoint resources_to_evaluate (t_now : Z) (d : PyDict.dict meta)
  : option (list candidate) :=
  match d with
  | [] => Some []
  | item :: d' =>
      match evaluate t_now item with
      | None => None
      | Some c =>
          match resources_to_evaluate t_now d' with
          | None => None
          | Some cs => Some (c :: cs)
          end
      end
  end.

(** Order of [sort(key=lambda x: (x[3], x[1]))]: priority, then score. *)
Definition eviction_order (x y : candidate) : bool :=
  (cand_priority x <? cand_priority y)
  || ((cand_priority x =? cand_priority y) && (cand_score x <=? cand_score y)).

(** The eviction loop.  [D] gives the environment of the [delete_resource]
    call made for each identifier.  The first component is [None] when the
    loop raises ([ZeroDivisionError]); otherwise it holds
    [deleted_resources] and [freed_space]. *)
Fixpoint evict (D : string -> env) (current_size max_size : Z)
  (cands : list candidate) (st : state)
  (deleted_resources : list candidate) (freed_space : Z)
  : option (list candidate * Z) * state :=
  match cands with
  | [] => (Some (deleted_resources, freed_space), st)
  | c :: rest =>
      if current_size - freed_space <=? max_size
      then (Some (deleted_resources, freed_space), st)       (* break *)
      else
        let attempt :=
          let (ok, st') :=
            delete_resource (D (cand_resource_id c)) st (cand_resource_id c) in
          if ok
          then evict D current_size max_size rest st'
                     (deleted_resources ++ [c]) (freed_space + cand_size c)
          else evict D current_size max_size rest st'
                     deleted_resources freed_space in
        if cand_priority c =? 1 then
          match div_lt_1_5 (current_size - freed_space) max_size with
          | None => (None, st)
          | Some true =>                                     (* continue *)
              evict D current_size max_size rest st
                    deleted_resources freed_space
          | Some false => attempt
          end
        else attempt
  end.

(** [optimize_storage] *)
Definition optimize_storage (E : env) (D : string -> env) (st : state)
  (max_size : option Z) : report * state :=
  let current_size := total_size (resources st) in
  let max_size := default (100 * 1024 * 1024) max_size in
  if current_size <=? max_size
  then (no_optimization_needed current_size max_size, st)
  else
    match resources_to_evaluate (now E) (resources st) with
    | None => (optimization_failed, st)
    | Some cands =>
        match evict D current_size max_size
                    (PyList.sort eviction_order cands) st [] 0 with
        | (None, st') => (optimization_failed, st')
        | (Some (deleted, freed_space), st') =>
            (optimization_completed (Z.of_nat (List.length deleted))
               freed_space (current_size - freed_space) deleted,
             st')
        end
    end.




End Manager.

(** ** An instance of the library interface, to run the model

    Timestamps are formatted and parsed as [datetime] does for naive values
    of the years 0001-9999 ([YYYY-MM-DDTHH:MM:SS], with [.ffffff] when the
    microseconds are not zero; the parser also takes a bare date).  The
    digest is replaced by a hexadecimal dump of the payload. *)

Module Calendar.

Definition digit (n : Z) : ascii := ascii_of_N (48 + Z.to_N (n mod 10)).

(** [n] in decimal on [w] digits, zero padded. *)
Fixpoint digits (w : nat) (n : Z) (acc : string) : string :=
  match w with
  | O => acc
  | S w' => digits w' (n / 10) (String (digit n) acc)
  end.

(** Day number since 1970-01-01 to (year, month, day), proleptic Gregorian. *)
Definition civil_from_days (days : Z) : Z * Z * Z :=
  let z := days + 719468 in
  let era := z / 146097 in
  let doe := z - era * 146097 in
  let yoe := (doe - doe / 1460 + doe / 36524 - doe / 146096) / 365 in
  let doy := doe - (365 * yoe + yoe / 4 - yoe / 100) in
  let mp := (5 * doy + 2) / 153 in
  let d := doy - (153 * mp + 2) / 5 + 1 in
  let m := if mp <? 10 then mp + 3 else mp - 9 in
  let y := yoe + era * 400 + (if m <=? 2 then 1 else 0) in
  (y, m, d).

Definition days_from_civil (y m d : Z) : Z :=
  let y := if m <=? 2 then y - 1 else y in
  let era := y / 400 in
  let yoe := y - era * 400 in
  let doy := (153 * (if 2 <? m then m - 3 else m + 9) + 2) / 5 + d - 1 in
  let doe := yoe * 365 + yoe / 4 - yoe / 100 + doy in
  era * 146097 + doe - 719468.

Definition isoformat (t : Z) : string :=
  let days := t / 86400000000 in
  let rest := t mod 86400000000 in
  let '(y, m, d) := civil_from_days days in
  let secs := rest / 1000000 in
  let micro := rest mod 1000000 in
  let time :=
    digits 2 (secs / 3600)
      (String ":" (digits 2 ((secs / 60) mod 60)
         (String ":" (digits 2 (secs mod 60)
            (if micro =? 0 then "" else String "." (digits 6 micro "")))))) in
  digits 4 y
    (String "-" (digits 2 m (String "-" (digits 2 d (String "T" time))))).

(** Reads [w] decimal digits. *)
Fixpoint number (w : nat) (s : list ascii) (acc : Z)
  : option (Z * list ascii) :=
  match w with
  | O => Some (acc, s)
  | S w' =>
      match s with
      | c :: s' =>
          let n := Z.of_N (N_of_ascii c) in
          if (48 <=? n) && (n <=? 57)
          then number w' s' (10 * acc + (n - 48))
          else None
      | [] => None
      end
  end.

Definition expect (c : ascii) (s : list ascii) : option (list ascii) :=
  match s with
  | c' :: s' => if Ascii.eqb c c' then Some s' else None
  | [] => None
  end.

Definition bind {A B : Type} (o : option A) (f : A -> option B) : option B :=
  match o with Some a => f a | None => None end.

Definition days_in_month (y m : Z) : Z :=
  days_from_civil (if m =? 12 then y + 1 else y)
                  (if m =? 12 then 1 else m + 1) 1
  - days_from_civil y m 1.

Definition parse_date (s : list ascii) : option (Z * list ascii) :=
  bind (number 4 s 0) (fun '(y, s) =>
  bind (expect "-" s) (fun s =>
  bind (number 2 s 0) (fun '(m, s) =>
  bind (expect "-" s) (fun s =>
  bind (number 2 s 0) (fun '(d, s) =>
  if (1 <=? y) && (1 <=? m) && (m <=? 12) && (1 <=? d)
     && (d <=? days_in_month y m)
  then Some (days_from_civil y m d, s)
  else None))))).

Definition parse_time (s : list ascii) : option Z :=
  bind (number 2 s 0) (fun '(h, s) =>
  bind (expect ":" s) (fun s =>
  bind (number 2 s 0) (fun '(mi, s) =>
  bind (expect ":" s) (fun s =>
  bind (number 2 s 0) (fun '(sec, s) =>
  if (h <=? 23) && (mi <=? 59) && (sec <=? 59) then
    let whole := ((h * 60 + mi) * 60 + sec) * 1000000 in
    match s with
    | [] => Some whole
    | _ =>
        bind (expect "." s) (fun s =>
        bind (number 6 s 0) (fun '(micro, s) =>
        match s with [] => Some (whole + micro) | _ => None end))
    end
  else None))))).

Definition fromisoformat (s : string) : option Z :=
  bind (parse_date (list_ascii_of_string s)) (fun '(days, s) =>
  match s with
  | [] => Some (days * 86400000000)
  | _ =>
      bind (expect "T" s) (fun s =>
      bind (parse_time s) (fun t => Some (days * 86400000000 + t)))
  end).

Definition hex_digit (n : N) : ascii :=
  ascii_of_N (if (n <? 10)%N then 48 + n else 87 + n).

Fixpoint hex_dump (data : bytes) : string :=
  match data with
  | [] => ""
  | b :: data' =>
      let n := Byte.to_N b in
      String (hex_digit (n / 16))
             (String (hex_digit (n mod 16)) (hex_dump data'))
  end.

End Calendar.

Definition example_lib : PyLib := {|
  sha256_hexdigest := Calendar.hex_dump;
  isoformat := Calendar.isoformat;
  fromisoformat := Calendar.fromisoformat
|}.

(** An environment in which nothing fails, at time [t]. *)
Definition calm (t : Z) : env := mkEnv t Done false false Done.

(** A manager started on an empty directory. *)
Definition fresh {lib : PyLib} : state :=
  init (calm 0) "/srv/resources" (fun _ => None) None EmptyString.

(** The selection of [list_resources] in the words of its contract: a
    record is kept when its category is the wanted one, if a category that
    is not the empty string is wanted, and its size is at most the bound, if
    a bound other than 0 is given. *)
Definition spec_selected (wanted : option string) (max_size : option Z)
  (m : meta) : bool :=
  match wanted with
  | Some "" | None => true
  | Some c =>
      match category m with
      | Some c' => String.eqb c' c
      | None => false
      end
  end
  &&
  match max_size with
  | Some 0 | None => true
  | Some n => default 0 (size m) <=? n
  end.

(** [l] is [l0] with some elements left out, the others in their order. *)
Inductive subseq {A : Type} : list A -> list A -> Prop :=
| subseq_nil : subseq [] []
| subseq_skip x l l0 : subseq l l0 -> subseq l (x :: l0)
| subseq_keep x l l0 : subseq l l0 -> subseq (x :: l) (x :: l0).

(** The candidate of a record in the words of the contract: its score is
    [access_count*10 + (5 - priority)*100 - age], where [age] is the number
    of whole days, rounded down, from [last_accessed] to [t_now]. *)
Definition scored {lib : PyLib} (t_now : Z) (item : string * meta)
  (c : candidate) : Prop :=
  exists accessed age,
    fromisoformat (default "1970-01-01T00:00:00" (last_accessed (snd item)))
      = Some accessed /\
    86400000000 * age <= t_now - accessed < 86400000000 * (age + 1) /\
    cand_resource_id c = fst item /\
    cand_priority c = default 3 (priority (snd item)) /\
    cand_size c = default 0 (size (snd item)) /\
    cand_score c =
      default 0 (access_count (snd item)) * 10
      + (5 - cand_priority c) * 100 - age.

(** Ascending order of the pair (priority, score). *)
Definition priority_then_score (x y : candidate) : Prop :=
  cand_priority x < cand_priority y \/
  (cand_priority x = cand_priority y /\ cand_score x <= cand_score y).

(** How [optimize_storage] reports the outcome of the eviction loop. *)
Definition conclude (current_size : Z)
  (outcome : option (list candidate * Z) * state) : report * state :=
  match outcome with
  | (None, st') => (optimization_failed, st')
  | (Some (deleted, freed_space), st') =>
      (optimization_completed (Z.of_nat (List.length deleted))
         freed_space (current_size - freed_space) deleted,
       st')
  end.





(** ** Sample runs *)

Module Sample.

#[local] Existing Instance example_lib.

(** 2023-11-14T22:13:20 *)
Definition t0 : Z := 1700000000000000.

Definition day : Z := 86400000000.

(** Environments in which one step fails. *)
Definition ledger_write_refused (t : Z) : env :=
  mkEnv t Done false false Refused.
Definition payload_write_refused (t : Z) : env :=
  mkEnv t Refused false false Done.
Definition remove_refused (t : Z) : env :=
  mkEnv t Done false true Done.

(** The same environment for every delete of an optimization. *)
Definition all_calm (t : Z) : string -> env := fun _ => calm t.

(** The text of the code points U+0068 U+00E9, and four bytes. *)
Definition hello : content := Text [104; 233]%N.
Definition blob : content := Binary [x01; x02; x03; x04].

(** A directory holding one resource. *)
Definition one_stored : state :=
  snd (store_resource (calm t0) fresh "config_main" hello "config" 1).

(** The same ledger after the payload file was removed by hand. *)
Definition orphaned : state := with_files one_stored (fun _ => None).



(** One critical resource and two low ones, four bytes each, read at
    different times. *)
Definition three_stored : state :=
  let s1 := snd (store_resource (calm t0) fresh "critical" blob "config" 1) in
  let s2 := snd (store_resource (calm (t0 + day)) s1 "low_a" blob "data" 4) in
  let s3 :=
    snd (store_resource (calm (t0 + 2 * day)) s2 "low_b" blob "data" 4) in
  snd (get_resource (calm (t0 + 3 * day)) s3 "low_a").

End Sample.

(** ** The other methods of the manager *)

(** Result of [get_version_info]. *)
Record version_info := mkVersion {
  vi_resource_id : string;
  vi_version : Z;
  vi_hash : option string;
  vi_size : Z;
  vi_last_modified : option string;
  vi_priority : Z
}.

(** One line of the access log. *)
Record log_entry := mkLog {
  log_timestamp : string;
  log_resource_id : string;
  log_client_ip : string
}.

(** The double quote, and a text between double quotes. *)
Definition dq : string := String (ascii_of_nat 34) EmptyString.

Definition quoted (s : string) : string := (dq ++ s ++ dq)%string.

(** The line feed. *)
Definition lf : string := String (ascii_of_nat 10) EmptyString.

(** A [str] literal of the source whose characters are all ASCII, as code
    points. *)
Definition literal (s : string) : content :=
  Text (map N_of_ascii (list_ascii_of_string s)).

(** The list [demo_resources] of [create_demo_resources]: id, content,
    category, priority. *)
Definition demo_resources : list (string * content * string * Z) :=
  [ ("config_main",
     literal ("{" ++ quoted "wifi_ssid" ++ ":" ++ quoted "demo_network" ++ ","
              ++ quoted "timeout" ++ ":5000," ++ quoted "buffer_size"
              ++ ":1024}")%string,
     "config", 1);
    ("lib_sensor",
     literal ("#include <sensor.h>" ++ lf
              ++ "void readSensor() { /* sensor code */ }")%string,
     "library", 2);
    ("data_sample",
     literal
       "Sample data for testing purposes. This could be a larger dataset.",
     "data", 3);
    ("ui_strings",
     literal ("{" ++ quoted "welcome" ++ ":" ++ quoted "Welcome to VRAM" ++ ","
              ++ quoted "error" ++ ":" ++ quoted "Error occurred" ++ ","
              ++ quoted "loading" ++ ":" ++ quoted "Loading..." ++ "}")%string,
     "ui", 2) ].

Section ManagerRest.
Context {lib : PyLib}.

(** [get_version_info] *)
Definition get_version_info (st : state) (resource_id : string)
  : option version_info :=
  match PyDict.get resource_id (resources st) with
  | None => None
  | Some resource_meta =>
      Some (mkVersion resource_id
                      (default 1 (version resource_meta))
                      (hash resource_meta)
                      (default 0 (size resource_meta))
                      (created resource_meta)
                      (default 3 (priority resource_meta)))
  end.

(** [log_access] on the lines of the access log; [append_fails] when the
    append raises (the error is logged and dropped). *)
Definition log_access (E : env) (append_fails : bool)
  (access_log : list log_entry) (resource_id client_ip : string)
  : list log_entry :=
  if append_fails then access_log
  else access_log ++ [mkLog (isoformat (now E)) resource_id client_ip].

(** One round of the loop of [create_demo_resources]. *)
Definition create_demo_resource (D : string -> env) (st : state)
  (resource : string * content * string * Z) : state :=
  let '(id, c, category, priority) := resource in
  match PyDict.get id (resources st) with
  | None => snd (store_resource (D id) st id c category priority)
  | Some _ => st
  end.

(** [create_demo_resources]; [D] gives the environment of the store of each
    identifier. *)
Definition create_demo_resources (D : string -> env) (st : state) : state :=
  fold_left (create_demo_resource D) demo_resources st.

(** A new manager object on the directory of [st]: what the directory holds
    is read again by [__init__]. *)
Definition restart (E : env) (st : state) : state :=
  init E (resource_dir st) (files st) (metadata_file st)
       (metadata_file_updated st).

(** [get_resource] called once for each environment of [Es], in turn. *)
Fixpoint get_many (Es : list env) (st : state) (resource_id : string)
  : list (option bytes) * state :=
  match Es with
  | [] => ([], st)
  | E :: Es' =>
      let (data, st1) := get_resource E st resource_id in
      let (rest, st2) := get_many Es' st1 resource_id in
      (data :: rest, st2)
  end.

End ManagerRest.

(** The records of category [c] (a record without one counts as
    ['unknown']). *)
Definition in_category (c : string) (item : string * meta) : bool :=
  String.eqb (default "unknown" (category (snd item))) c.

(** Sum of the sizes of a list of candidates. *)
Definition cand_sizes (l : list candidate) : Z :=
  fold_right (fun c acc => cand_size c + acc) 0 l.



(** The record [m] after a read at the time of [E] that found the count
    [n]. *)
Definition accessed_record {lib : PyLib} (E : env) (m : meta) (n : Z) : meta :=
  mkMeta (size m) (hash m) (category m) (priority m) (created m)
         (Some (isoformat (now E))) (Some (n + 1)) (version m).

(** Sum of the sizes that a listing shows. *)
Definition listed_sizes (l : list resource_info) : Z :=
  fold_right (fun x acc => ri_size x + acc) 0 l.

(** The pair (identifier, access count) that [get_usage_stats] ranks. *)
Definition access_pair (item : string * meta) : string * Z :=
  (fst item, default 0 (access_count (snd item))).

(** The ledger after the records of the candidates [l] were deleted. *)
Definition without (l : list candidate) (d : PyDict.dict meta)
  : PyDict.dict meta :=
  fold_left (fun d c => PyDict.del (cand_resource_id c) d) l d.

(** [p] is the payload path of one of the candidates [l]. *)
Definition payload_of (st : state) (l : list candidate) (p : string) : bool :=
  existsb (fun c => String.eqb (_get_file_path st (cand_resource_id c)) p) l.

(** ** The request handlers of [app.py] *)

Module PyBytes.

(** The six payload bits of a continuation byte [10xxxxxx]. *)
Definition continuation (b : byte) : option N :=
  let n := Byte.to_N b in
  if ((128 <=? n) && (n <? 192))%N then Some (n - 128)%N else None.

(** [data.decode('utf-8')]; [None] is [UnicodeDecodeError]: a stray or
    missing continuation byte, an overlong form, a surrogate, or a value
    above U+10FFFF. *)
Fixpoint decode_utf8 (data : bytes) : option (list N) :=
  match data with
  | [] => Some []
  | b0 :: l1 =>
      let n0 := Byte.to_N b0 in
      if (n0 <? 128)%N then option_map (cons n0) (decode_utf8 l1)
      else if (n0 <? 192)%N then None
      else if (n0 <? 224)%N then
        match l1 with
        | b1 :: l2 =>
            match continuation b1 with
            | Some c1 =>
                let c := ((n0 - 192) * 64 + c1)%N in
                if (c <? 128)%N then None
                else option_map (cons c) (decode_utf8 l2)
            | None => None
            end
        | [] => None
        end
      else if (n0 <? 240)%N then
        match l1 with
        | b1 :: b2 :: l3 =>
            match continuation b1, continuation b2 with
            | Some c1, Some c2 =>
                let c := ((n0 - 224) * 4096 + c1 * 64 + c2)%N in
                if ((c <? 2048) || ((55296 <=? c) && (c <=? 57343)))%N
                then None
                else option_map (cons c) (decode_utf8 l3)
            | _, _ => None
            end
        | _ => None
        end
      else if (n0 <? 248)%N then
        match l1 with
        | b1 :: b2 :: b3 :: l4 =>
            match continuation b1, continuation b2, continuation b3 with
            | Some c1, Some c2, Some c3 =>
                let c :=
                  ((n0 - 240) * 262144 + c1 * 4096 + c2 * 64 + c3)%N in
                if ((c <? 65536) || (1114111 <? c))%N then None
                else option_map (cons c) (decode_utf8 l4)
            | _, _, _ => None
            end
        | _ => None
        end
      else None
  end.

(** [data.hex()] *)
Definition hex (data : bytes) : string := Calendar.hex_dump data.

End PyBytes.

(** The JSON object of an upload: each key may be absent. *)
Record upload := mkUpload {
  up_resource_id : option string;
  up_content : option content;
  up_category : option string;
  up_priority : option Z
}.

(** What a handler answers: the JSON document, by its kind and fields (the
    ['timestamp'] of the moment of the answer is left out), and the HTTP
    status. *)
Inductive answer :=
| json_error (error : string)
| json_resource (resource_id : string) (data : list N) (size : Z)
| json_compressed (resource_id : string) (data : string)
                  (original_size compressed_size : Z)
| json_message (message : string) (resource_id : string).

(** The manager of the server and the lines of its access log. *)
Record server := mkServer {
  manager : state;
  access_log : list log_entry
}.

Section Handlers.
Context {lib : PyLib}.

(** [gzip.compress] *)
Variable gzip_compress : bytes -> bytes.

(** The handler of [GET /api/resources/<resource_id>], for a parsed
    [compress] flag.  [log_fails]: the append to the access log raises. *)
Definition http_get_resource (E : env) (log_fails : bool) (srv : server)
  (resource_id : string) (compress : bool) (remote_addr : string)
  : (answer * Z) * server :=
  let (resource_data, st1) := get_resource E (manager srv) resource_id in
  match resource_data with
  | None | Some [] =>                        (* not resource_data *)
      ((json_error "Resource not found", 404), mkServer st1 (access_log srv))
  | Some data =>
      let log1 :=
        log_access E log_fails (access_log srv) resource_id remote_addr in
      let size := Z.of_nat (List.length data) in
      if compress && (512 <? size) then
        let compressed_data := gzip_compress data in
        ((json_compressed resource_id (PyBytes.hex compressed_data) size
            (Z.of_nat (List.length compressed_data)), 200),
         mkServer st1 log1)
      else
        match PyBytes.decode_utf8 data with
        | Some text =>
            ((json_resource resource_id text size, 200), mkServer st1 log1)
        | None =>
            ((json_error "Internal server error", 500), mkServer st1 log1)
        end
  end.

(** The handler of [POST /api/resources] once [request.get_json()] has
    returned [data] ([None]: the body is the JSON [null] or another empty
    value). *)
Definition http_upload_resource (E : env) (srv : server)
  (data : option upload) : (answer * Z) * server :=
  match data with
  | Some (mkUpload (Some resource_id) (Some c) category priority) =>
      let (success, st1) :=
        store_resource E (manager srv) resource_id c
                       (default "general" category) (default 1 priority) in
      if success
      then ((json_message "Resource uploaded successfully" resource_id, 201),
            mkServer st1 (access_log srv))
      else ((json_error "Failed to store resource", 500),
            mkServer st1 (access_log srv))
  | _ =>
      ((json_error "Missing required fields: resource_id, content", 400), srv)
  end.

(** The body of a request as [request.get_json()] meets it: not JSON (the
    call raises, as Flask does from 2.1 on), or JSON that parses to
    [data]. *)
Inductive body : Type :=
| NotJson
| Json (data : option upload).

(** The whole handler of [POST /api/resources]: what [get_json] raises is
    caught by the handler's [except]. *)
Definition http_upload_request (E : env) (srv : server) (b : body)
  : (answer * Z) * server :=
  match b with
  | NotJson => ((json_error "Internal server error", 500), srv)
  | Json data => http_upload_resource E srv data
  end.

End Handlers.

(** ** More sample runs *)

Module MoreSamples.
Import Sample.

#[local] Existing Instance example_lib.

(** A ledger read from a document that this code did not write: one record
    without access count, one with a timestamp that does not parse; the
    payload of the first is on disk. *)
Definition foreign : state :=
  with_files
    (with_resources fresh
       [("plain", mkMeta (Some 2) None (Some "data") (Some 3) None
                         (Some "2023-11-14T22:13:20") None None);
        ("dated", mkMeta (Some 5) None None None None
                         (Some "yesterday") (Some 0) None)])
    (fs_write (fun _ => None) "/srv/resources/plain.dat" [x68; x69]).

(** The report of the optimization of [three_stored] down to 10 bytes, ten
    days after [t0]. *)
Definition trimmed : report * state :=
  optimize_storage (calm (t0 + 10 * day)) (all_calm (t0 + 10 * day))
                   three_stored (Some 10).

(** Two resources stored at the same instant, and a third one later: the
    first two share their timestamp key. *)
Definition tied : state :=
  let s1 := snd (store_resource (calm t0) fresh "first" blob "data" 2) in
  let s2 := snd (store_resource (calm t0) s1 "second" hello "data" 2) in
  snd (store_resource (calm (t0 + day)) s2 "third" blob "data" 2).

(** A server on an empty directory, and the identity in place of
    [gzip.compress]. *)
Definition empty_server : server := mkServer fresh [].

Definition no_compression (data : bytes) : bytes := data.

(** The upload of the text of the code points U+0068 U+00E9. *)
Definition upload_hello : option upload :=
  Some (mkUpload (Some "greeting") (Some hello) None None).

End MoreSamples.

(** ** Facts on the Python primitives *)

Module PyListFacts.
Section Sorting.
Context {A : Type}.
Variable before : A -> A -> bool.

Lemma insert_perm (x : A) (l : list A) :
  Permutation (PyList.insert before x l) (x :: l).
Proof.
  induction l as [|y l IH]; simpl.
  - apply Permutation_refl.
  - destruct (before x y).
    + apply Permutation_refl.
    + eapply perm_trans; [apply perm_skip, IH | apply perm_swap].
Qed.

Lemma sort_perm (l : list A) : Permutation (PyList.sort before l) l.
Proof.
  induction l as [|x l IH]; simpl.
  - constructor.
  - eapply perm_trans; [apply insert_perm | apply perm_skip, IH].
Qed.

Lemma sort_in (l : list A) (x : A) : In x (PyList.sort before l) <-> In x l.
Proof.
  split; apply Permutation_in;
    [apply sort_perm | apply Permutation_sym, sort_perm].
Qed.

Hypothesis before_total : forall x y, before x y = true \/ before y x = true.

Lemma insert_hd (x a : A) (l : list A) :
  PyList.precedes before a x ->
  HdRel (PyList.precedes before) a l ->
  HdRel (PyList.precedes before) a (PyList.insert before x l).
Proof.
  intros Hax Hl. destruct l as [|y l]; simpl.
  - constructor; exact Hax.
  - destruct (before x y); constructor; [exact Hax|].
    inversion Hl; assumption.
Qed.

Lemma insert_sorted (x : A) (l : list A) :
  Sorted (PyList.precedes before) l ->
  Sorted (PyList.precedes before) (PyList.insert before x l).
Proof.
  induction 1 as [|y l Hs IH Hhd]; simpl.
  - repeat constructor.
  - destruct (before x y) eqn:Hxy.
    + constructor; [constructor; assumption | constructor; exact Hxy].
    + constructor; [exact IH|].
      apply insert_hd; [|exact Hhd].
      destruct (before_total x y) as [H|H]; [congruence | exact H].
Qed.

Lemma sort_sorted (l : list A) :
  Sorted (PyList.precedes before) (PyList.sort before l).
Proof.
  induction l as [|x l IH]; simpl; [constructor | apply insert_sorted, IH].
Qed.

End Sorting.

Section Slicing.
Context {A : Type}.

(** For a start and a length that are not negative, a slice is the usual
    window. *)
Lemma slice_window (l : list A) (start len : Z) :
  0 <= start -> 0 <= len ->
  PyList.slice l start (start + len) =
  firstn (Z.to_nat len) (skipn (Z.to_nat start) l).
Proof.
  intros Hs Hl. unfold PyList.slice, PyList.slice_index.
  set (n := List.length l).
  destruct (start <? 0) eqn:E1; [apply Z.ltb_lt in E1; lia|].
  destruct (start + len <? 0) eqn:E2; [apply Z.ltb_lt in E2; lia|].
  destruct (Z_le_gt_dec (Z.of_nat n) start) as [Hge|Hlt].
  - rewrite !Z.min_r by lia.
    replace (Z.to_nat (Z.of_nat n - Z.of_nat n)) with O by lia.
    rewrite Nat2Z.id. subst n. rewrite skipn_all. simpl.
    rewrite skipn_all2 by lia. now rewrite firstn_nil.
  - rewrite (Z.min_l start) by lia.
    destruct (Z_le_gt_dec (start + len) (Z.of_nat n)) as [Hin|Hout].
    + rewrite Z.min_l by lia. f_equal. lia.
    + rewrite Z.min_r by lia.
      rewrite !firstn_all2; try reflexivity;
        rewrite length_skipn; subst n; lia.
Qed.

End Slicing.
End PyListFacts.

Module PyDictFacts.
Section Facts.
Context {V : Type}.
Implicit Types (d : PyDict.dict V) (k : string) (v : V).

Lemma get_set_same k v d : PyDict.get k (PyDict.set k v d) = Some v.
Proof.
  induction d as [|[k' v'] d IH]; simpl.
  - now rewrite String.eqb_refl.
  - destruct (String.eqb k' k) eqn:E; simpl.
    + now rewrite String.eqb_refl.
    + now rewrite E.
Qed.

Lemma get_set_other k k0 v d :
  k0 <> k -> PyDict.get k0 (PyDict.set k v d) = PyDict.get k0 d.
Proof.
  intros Hne. induction d as [|[k' v'] d IH]; simpl.
  - destruct (String.eqb k k0) eqn:E; [|reflexivity].
    apply String.eqb_eq in E. congruence.
  - destruct (String.eqb k' k) eqn:E; simpl.
    + apply String.eqb_eq in E. subst k'.
      destruct (String.eqb k k0) eqn:E0; [|reflexivity].
      apply String.eqb_eq in E0. congruence.
    + now rewrite IH.
Qed.

Lemma get_del_same k d : PyDict.get k (PyDict.del k d) = None.
Proof.
  induction d as [|[k' v'] d IH]; simpl; [reflexivity|].
  destruct (String.eqb k' k) eqn:E; simpl; [exact IH | now rewrite E].
Qed.

Lemma get_del_other k k0 d :
  k0 <> k -> PyDict.get k0 (PyDict.del k d) = PyDict.get k0 d.
Proof.
  intros Hne. induction d as [|[k' v'] d IH]; simpl; [reflexivity|].
  destruct (String.eqb k' k) eqn:E; simpl.
  - apply String.eqb_eq in E. subst k'.
    destruct (String.eqb k k0) eqn:E0; [|exact IH].
    apply String.eqb_eq in E0. congruence.
  - now rewrite IH.
Qed.

Lemma in_del k k0 v d :
  In (k0, v) (PyDict.del k d) -> k0 <> k /\ In (k0, v) d.
Proof.
  induction d as [|[k' v'] d IH]; simpl; [tauto|].
  destruct (String.eqb k' k) eqn:E.
  - intros H. destruct (IH H). tauto.
  - intros [H|H].
    + inversion H; subst. apply String.eqb_neq in E. tauto.
    + destruct (IH H). tauto.
Qed.

End Facts.
End PyDictFacts.

Module PathFacts.

Lemma append_cancel_l (p a b : string) :
  (p ++ a)%string = (p ++ b)%string -> a = b.
Proof.
  induction p as [|c p IH]; simpl; [tauto|].
  intros H. inversion H. auto.
Qed.

Lemma list_of_append (a b : string) :
  list_ascii_of_string (a ++ b)%string =
  list_ascii_of_string a ++ list_ascii_of_string b.
Proof. induction a as [|c a IH]; simpl; [reflexivity | now rewrite IH]. Qed.

Lemma append_cancel_r (a b s : string) :
  (a ++ s)%string = (b ++ s)%string -> a = b.
Proof.
  intros H. apply (f_equal list_ascii_of_string) in H.
  rewrite !list_of_append in H. apply app_inv_tail in H.
  rewrite <- (string_of_list_ascii_of_string a),
          <- (string_of_list_ascii_of_string b).
  now rewrite H.
Qed.

(** The payload name of a plain identifier is a relative path. *)
Lemma plain_not_abs (id : string) :
  plain_name id -> PyPath.isabs (id ++ ".dat")%string = false.
Proof.
  destruct id as [|c id]; [reflexivity|].
  unfold plain_name, PyPath.plain. cbn [list_ascii_of_string existsb
    String.append PyPath.isabs].
  rewrite negb_true_iff, orb_false_iff. intros [H _].
  now rewrite Ascii.eqb_sym.
Qed.

(** Joined to one directory, two relative paths differ as they do. *)
Lemma join_inj (d x y : string) :
  PyPath.isabs x = false -> PyPath.isabs y = false ->
  PyPath.join d x = PyPath.join d y -> x = y.
Proof.
  intros Hx Hy. unfold PyPath.join. rewrite Hx, Hy.
  destruct d as [|c d]; [tauto|].
  destruct (PyPath.ends_with_sep (String c d)); intros H.
  - now apply append_cancel_l in H.
  - apply append_cancel_l in H. now apply (append_cancel_l "/") in H.
Qed.

End PathFacts.

(** ** Store, get and delete *)

Section StoreGetDelete.
Context {lib : PyLib}.

Lemma save_resources E st : resources (_save_metadata E st) = resources st.
Proof. reflexivity. Qed.

Lemma save_files E st : files (_save_metadata E st) = files st.
Proof. reflexivity. Qed.

Lemma save_dir E st : resource_dir (_save_metadata E st) = resource_dir st.
Proof. reflexivity. Qed.

Lemma save_path E st id :
  _get_file_path (_save_metadata E st) id = _get_file_path st id.
Proof. unfold _get_file_path. now rewrite ?save_dir. Qed.

Lemma path_inj st a b :
  plain_name a -> plain_name b ->
  _get_file_path st a = _get_file_path st b -> a = b.
Proof.
  intros Ha Hb H. unfold _get_file_path in H.
  apply PathFacts.join_inj in H; try now apply PathFacts.plain_not_abs.
  now apply PathFacts.append_cancel_r in H.
Qed.

Lemma path_neq st a b :
  plain_name a -> plain_name b -> a <> b ->
  _get_file_path st a <> _get_file_path st b.
Proof. intros Ha Hb Hne H. apply Hne. eapply path_inj; eauto. Qed.

Lemma fs_write_same fs p d : fs_write fs p d p = Some d.
Proof. unfold fs_write. now rewrite String.eqb_refl. Qed.

Lemma fs_write_other fs p q d : q <> p -> fs_write fs p d q = fs q.
Proof.
  intros H. unfold fs_write. destruct (String.eqb q p) eqn:E; [|reflexivity].
  apply String.eqb_eq in E. congruence.
Qed.

Lemma fs_remove_same fs p : fs_remove fs p p = None.
Proof. unfold fs_remove. now rewrite String.eqb_refl. Qed.

Lemma fs_remove_other fs p q : q <> p -> fs_remove fs p q = fs q.
Proof.
  intros H. unfold fs_remove. destruct (String.eqb q p) eqn:E; [|reflexivity].
  apply String.eqb_eq in E. congruence.
Qed.

(** The state a store leaves when the payload write completes. *)
Lemma store_resource_done E st id c cat p data :
  to_bytes c = Some data -> payload_write E = Done ->
  store_resource E st id c cat p =
  (true,
   _save_metadata E
     (with_resources
        (with_files st (fs_write (files st) (_get_file_path st id) data))
        (PyDict.set id (fresh_record E data cat p) (resources st)))).
Proof.
  intros Hc Hw. unfold store_resource. rewrite Hc, Hw. reflexivity.
Qed.

(** A store answers success only after a completed payload write. *)
Lemma store_resource_true E st id c cat p :
  fst (store_resource E st id c cat p) = true ->
  exists data, to_bytes c = Some data /\ payload_write E = Done.
Proof.
  unfold store_resource. destruct (to_bytes c) as [data|]; [|discriminate].
  destruct (payload_write E); try discriminate. eauto.
Qed.

(** C3 (amended): a store whose payload write fails answers failure; a store
    whose payload write completes answers success and installs the record in
    the ledger held in memory, whatever becomes of the write of the ledger
    document.  The answer is a boolean in every case: nothing is raised. *)
Theorem store_resource_failure E st id c cat p :
  (payload_write E <> Done -> fst (store_resource E st id c cat p) = false) /\
  (forall data,
      to_bytes c = Some data -> payload_write E = Done ->
      fst (store_resource E st id c cat p) = true /\
      PyDict.get id (resources (snd (store_resource E st id c cat p))) =
      Some (fresh_record E data cat p)).
Proof.
  split.
  - intros Hw. unfold store_resource.
    destruct (to_bytes c); [|reflexivity].
    destruct (payload_write E); [congruence | reflexivity | reflexivity].
  - intros data Hc Hw. rewrite (store_resource_done _ _ _ _ _ _ _ Hc Hw).
    simpl. rewrite ?save_resources. simpl.
    split; [reflexivity | apply PyDictFacts.get_set_same].
Qed.

(** C4: after a store of [X] that answers success, a get of the same
    identifier whose read does not fail returns the UTF-8 encoding of [X]
    when [X] is a string, and [X] when [X] is a byte string. *)
Theorem store_get_roundtrip E1 E2 st id c cat p :
  fst (store_resource E1 st id c cat p) = true ->
  payload_read_fails E2 = false ->
  let st1 := snd (store_resource E1 st id c cat p) in
  (forall s, c = Text s ->
     exists data, PyStr.encode_utf8 s = Some data /\
                  fst (get_resource E2 st1 id) = Some data) /\
  (forall b, c = Binary b -> fst (get_resource E2 st1 id) = Some b).
Proof.
  intros Hok Hread.
  destruct (store_resource_true _ _ _ _ _ _ Hok) as (data & Hc & Hw).
  rewrite (store_resource_done _ _ _ _ _ _ _ Hc Hw). simpl.
  assert (Hget : fst (get_resource E2
            (_save_metadata E1
               (with_resources
                  (with_files st
                     (fs_write (files st) (_get_file_path st id) data))
                  (PyDict.set id (fresh_record E1 data cat p) (resources st))))
            id) = Some data).
  { unfold get_resource. rewrite ?save_resources, ?save_files, ?save_path. simpl.
    rewrite PyDictFacts.get_set_same.
    unfold _get_file_path at 1. simpl. fold (_get_file_path st id).
    rewrite fs_write_same, Hread. reflexivity. }
  split.
  - intros s ->. simpl in Hc. eauto.
  - intros b ->. simpl in Hc. inversion Hc; subst. exact Hget.
Qed.

(** C5: a store that answers success leaves for the identifier the record of
    a first store (size and digest of the new payload, the given category
    and priority, [created] and [last_accessed] at the current time, access
    count 0, version 1), whatever record the ledger held for it before. *)
Theorem store_installs_fresh_record E st id c cat p :
  fst (store_resource E st id c cat p) = true ->
  exists data,
    to_bytes c = Some data /\
    PyDict.get id (resources (snd (store_resource E st id c cat p))) =
    Some (mkMeta (Some (Z.of_nat (List.length data)))
                 (Some (sha256_hexdigest data))
                 (Some cat) (Some p)
                 (Some (isoformat (now E))) (Some (isoformat (now E)))
                 (Some 0) (Some 1)).
Proof.
  intros Hok.
  destruct (store_resource_true _ _ _ _ _ _ Hok) as (data & Hc & Hw).
  exists data. split; [exact Hc|].
  rewrite (store_resource_done _ _ _ _ _ _ _ Hc Hw). simpl.
  rewrite ?save_resources. simpl. apply PyDictFacts.get_set_same.
Qed.


Lemma in_firstn_skipn {A : Type} (n k : nat) (l : list A) (x : A) :
  In x (firstn n (skipn k l)) -> In x l.
Proof.
  intros H.
  rewrite <- (firstn_skipn k l). apply in_or_app. right.
  rewrite <- (firstn_skipn n (skipn k l)). apply in_or_app. now left.
Qed.

(** Every entry of a listing describes a record of the ledger. *)
Lemma list_resources_in st cat ms page pp x :
  In x (list_resources st cat ms page pp) ->
  exists m, In (ri_resource_id x, m) (resources st).
Proof.
  unfold list_resources, PyList.slice. intros H.
  apply in_firstn_skipn in H. apply PyListFacts.sort_in in H.
  unfold listed in H. apply in_map_iff in H.
  destruct H as ([k m] & Hx & Hin). apply filter_In in Hin.
  subst x. simpl. exists m. tauto.
Qed.

(** C6: a get of an identifier without a record returns absent and changes
    nothing; a get of an identifier whose record is there but whose payload
    file is missing returns absent and removes the record, so that no later
    listing names the identifier. *)
Theorem get_resource_absent E st id :
  (PyDict.get id (resources st) = None -> get_resource E st id = (None, st)) /\
  (forall m,
      PyDict.get id (resources st) = Some m ->
      files st (_get_file_path st id) = None ->
      let st' := snd (get_resource E st id) in
      fst (get_resource E st id) = None /\
      PyDict.get id (resources st') = None /\
      forall cat ms page pp x,
        In x (list_resources st' cat ms page pp) -> ri_resource_id x <> id).
Proof.
  split.
  - intros H. unfold get_resource. now rewrite H.
  - intros m Hm Hf. unfold get_resource. rewrite Hm, Hf. simpl.
    rewrite ?save_resources. simpl.
    split; [reflexivity|]. split; [apply PyDictFacts.get_del_same|].
    intros cat ms page pp x Hin Heq.
    destruct (list_resources_in _ _ _ _ _ _ Hin) as (m' & Hm').
    rewrite ?save_resources in Hm'. simpl in Hm'.
    apply PyDictFacts.in_del in Hm'. tauto.
Qed.

(** The state a delete leaves when it goes through. *)
Lemma delete_resource_true E st id :
  fst (delete_resource E st id) = true ->
  exists fs,
    snd (delete_resource E st id) =
    _save_metadata E
      (with_resources (with_files st fs) (PyDict.del id (resources st))) /\
    fs (_get_file_path st id) = None /\
    (forall q, q <> _get_file_path st id -> fs q = files st q).
Proof.
  unfold delete_resource.
  destruct (PyDict.get id (resources st)); [|discriminate].
  destruct (files st (_get_file_path st id)) eqn:Hf.
  - destruct (payload_remove_fails E); [discriminate|]. intros _.
    exists (fs_remove (files st) (_get_file_path st id)). simpl.
    split; [reflexivity|]. split; [apply fs_remove_same|].
    intros q Hq. now apply fs_remove_other.
  - intros _. exists (files st). simpl. split; [now destruct st|].
    split; [exact Hf | reflexivity].
Qed.

(** A delete that answers failure has changed nothing. *)
Lemma delete_resource_false E st id :
  fst (delete_resource E st id) = false -> snd (delete_resource E st id) = st.
Proof.
  unfold delete_resource.
  destruct (PyDict.get id (resources st)); [|reflexivity].
  destruct (files st (_get_file_path st id));
    [destruct (payload_remove_fails E)|]; simpl; try discriminate; reflexivity.
Qed.

(** C7 (amended): a delete answers failure exactly when the identifier has
    no record or the removal of its existing payload file fails, and then
    the record, the file and all the rest are left as they were; otherwise
    (also when the file is already missing) it answers success, and then the
    payload file and the record are gone, a get of the identifier returns
    absent and a second delete answers failure. *)
Theorem delete_resource_result E st id :
  (fst (delete_resource E st id) = false <->
   PyDict.get id (resources st) = None \/
   (files st (_get_file_path st id) <> None /\
    payload_remove_fails E = true)) /\
  (fst (delete_resource E st id) = false ->
   snd (delete_resource E st id) = st) /\
  (fst (delete_resource E st id) = true ->
   let st' := snd (delete_resource E st id) in
   files st' (_get_file_path st' id) = None /\
   PyDict.get id (resources st') = None /\
   (forall E', fst (get_resource E' st' id) = None) /\
   (forall E', fst (delete_resource E' st' id) = false)).
Proof.
  split.
  - unfold delete_resource.
    destruct (PyDict.get id (resources st)) as [m|]; [|simpl; tauto].
    destruct (files st (_get_file_path st id)) as [data|].
    + destruct (payload_remove_fails E); simpl.
      * split; [|reflexivity].
        intros _; right; split; [discriminate|reflexivity].
      * split; [discriminate|]. intros [H|[_ H]]; discriminate.
    + simpl. split; [discriminate|]. intros [H|[H _]]; [discriminate|tauto].
  - split; [apply delete_resource_false|].
    intros Hok.
    destruct (delete_resource_true _ _ _ Hok) as (fs & -> & Hfs & _).
    simpl. rewrite ?save_files, ?save_path, ?save_resources. simpl.
    assert (Hget : PyDict.get id (PyDict.del id (resources st)) = None)
      by apply PyDictFacts.get_del_same.
    split; [exact Hfs|]. split; [exact Hget|].
    split; intros E'.
    + unfold get_resource. rewrite ?save_resources. simpl. now rewrite Hget.
    + unfold delete_resource. rewrite ?save_resources. simpl. now rewrite Hget.
Qed.

End StoreGetDelete.

(** ** Listing *)

Section Listing.
Context {lib : PyLib}.

Lemma truthy_empty : PyStr.truthy "" = false.
Proof. reflexivity. Qed.

Lemma truthy_nonempty a s : PyStr.truthy (String a s) = true.
Proof. reflexivity. Qed.

(** The two tests of the loop keep exactly the records of the contract. *)
Lemma kept_iff_selected cat ms m :
  negb (category_mismatch cat m) && negb (size_exceeds ms m) =
  spec_selected cat ms m.
Proof.
  unfold spec_selected, category_mismatch, size_exceeds.
  f_equal.
  - destruct cat as [[|a c]|]; try reflexivity.
    rewrite truthy_nonempty. simpl. now rewrite negb_involutive.
  - destruct ms as [n|]; [|reflexivity].
    destruct (Z.eqb_spec n 0) as [->|Hn]; [reflexivity|].
    simpl. rewrite Z.leb_antisym.
    destruct n; try reflexivity. congruence.
Qed.

Lemma more_recent_total x y :
  more_recent x y = true \/ more_recent y x = true.
Proof. unfold more_recent, PyStr.le. apply String.leb_total. Qed.

(** C10: a bound of 0 on the size filters nothing: no record fails the size
    test, the listing is the one obtained without a bound, and every record
    of the ledger, whatever its size, is in the listing that asks for no
    category and for one page as long as the ledger. *)
Theorem list_resources_max_size_zero st cat page pp :
  (forall m, size_exceeds (Some 0) m = false) /\
  list_resources st cat (Some 0) page pp = list_resources st cat None page pp /\
  (forall id m,
      In (id, m) (resources st) ->
      In (resource_info_of (id, m))
         (list_resources st None (Some 0) 1
            (Z.of_nat (List.length (resources st))))).
Proof.
  split; [reflexivity|]. split; [reflexivity|].
  intros id m Hin. unfold list_resources.
  set (n := List.length (resources st)).
  set (l := PyList.sort more_recent (listed None (Some 0) (resources st))).
  assert (Hlen : (List.length l <= n)%nat).
  { subst l n. rewrite (Permutation_length (PyListFacts.sort_perm _ _)).
    unfold listed. rewrite length_map. apply filter_length_le. }
  replace ((1 - 1) * Z.of_nat n) with 0 by lia.
  rewrite (PyListFacts.slice_window l 0 (Z.of_nat n)) by lia.
  rewrite Nat2Z.id. simpl skipn. rewrite firstn_all2 by exact Hlen.
  subst l. apply PyListFacts.sort_in. unfold listed.
  apply in_map, filter_In. split; [exact Hin | reflexivity].
Qed.

(** C9 (amended): for a page number of at least 1 and a page length that is
    not negative, a listing is a window of the selected records put in
    descending order of [last_accessed] (a record without one counts as
    ['1970-01-01']): the records are selected on an exact match of the
    category when a category other than the empty string is given, and on a
    size of at most [max_size] when a [max_size] other than 0 is given; the
    window holds the positions from [(page-1)*per_page] up to, and not
    including, [page*per_page], and is empty when the page starts after the
    last record. *)
Theorem list_resources_spec st cat ms page pp :
  1 <= page -> 0 <= pp ->
  exists ordered,
    Permutation ordered
      (map resource_info_of
           (filter (fun item => spec_selected cat ms (snd item))
                   (resources st))) /\
    Sorted (fun x y => PyStr.le (recency_key y) (recency_key x) = true)
           ordered /\
    list_resources st cat ms page pp =
      firstn (Z.to_nat pp) (skipn (Z.to_nat ((page - 1) * pp)) ordered) /\
    (Z.of_nat (List.length ordered) <= (page - 1) * pp ->
     list_resources st cat ms page pp = []).
Proof.
  intros Hpage Hpp.
  exists (PyList.sort more_recent (listed cat ms (resources st))).
  assert (Hwin : list_resources st cat ms page pp =
                 firstn (Z.to_nat pp)
                   (skipn (Z.to_nat ((page - 1) * pp))
                      (PyList.sort more_recent
                         (listed cat ms (resources st))))).
  { unfold list_resources. apply PyListFacts.slice_window; nia. }
  split; [|split; [|split]].
  - eapply perm_trans; [apply PyListFacts.sort_perm|].
    unfold listed. erewrite filter_ext; [apply Permutation_refl|].
    intros item. apply kept_iff_selected.
  - apply (PyListFacts.sort_sorted more_recent more_recent_total).
  - exact Hwin.
  - intros Hout. rewrite Hwin, skipn_all2 by lia. apply firstn_nil.
Qed.

End Listing.

(** ** Optimization *)

Section Optimizing.
Context {lib : PyLib}.

Lemma subseq_in {A : Type} (l l0 : list A) :
  subseq l l0 -> forall x, In x l -> In x l0.
Proof.
  induction 1 as [|y l l0 _ IH|y l l0 _ IH]; simpl; intros x Hx; auto.
  destruct Hx; auto.
Qed.

Lemma subseq_strongly_sorted {A : Type} (R : A -> A -> Prop) (l l0 : list A) :
  subseq l l0 -> StronglySorted R l0 -> StronglySorted R l.
Proof.
  induction 1 as [|y l l0 Hs IH|y l l0 Hs IH]; intros Hsorted.
  - constructor.
  - apply StronglySorted_inv in Hsorted. tauto.
  - apply StronglySorted_inv in Hsorted. destruct Hsorted as [Hl0 Hall].
    constructor; [auto|].
    rewrite Forall_forall in *. intros x Hx.
    apply Hall. eapply subseq_in; eauto.
Qed.

Lemma evaluate_scored t_now item c :
  evaluate t_now item = Some c -> scored t_now item c.
Proof.
  destruct item as [id m]. unfold evaluate, scored. cbn [fst snd].
  destruct (fromisoformat _) as [accessed|]; [|discriminate].
  intros H. inversion H; subst c; clear H.
  cbn [cand_resource_id cand_priority cand_size cand_score].
  exists accessed, (timedelta_days t_now accessed).
  split; [reflexivity|]. split; [|tauto].
  unfold timedelta_days.
  pose proof (Z.div_mod (t_now - accessed) 86400000000 ltac:(lia)).
  pose proof (Z.mod_pos_bound (t_now - accessed) 86400000000 ltac:(lia)).
  lia.
Qed.

(** The scoring loop goes through when every timestamp parses. *)
Lemma resources_to_evaluate_total t_now d :
  (forall id m, In (id, m) d ->
     fromisoformat (default "1970-01-01T00:00:00" (last_accessed m)) <> None) ->
  exists cands,
    resources_to_evaluate t_now d = Some cands /\
    Forall2 (scored t_now) d cands.
Proof.
  induction d as [|[id m] d IH]; intros Hparse; cbn [resources_to_evaluate].
  - exists []. split; [reflexivity | constructor].
  - destruct IH as (cs & Hcs & Hall).
    { intros id' m' Hin. apply (Hparse id' m'). now right. }
    destruct (evaluate t_now (id, m)) as [c|] eqn:Hc.
    + rewrite Hcs. exists (c :: cs). split; [reflexivity|].
      constructor; [now apply evaluate_scored | exact Hall].
    + exfalso. apply (Hparse id m); [now left|].
      unfold evaluate in Hc.
      destruct (fromisoformat _); [discriminate | reflexivity].
Qed.

Lemma eviction_order_iff x y :
  eviction_order x y = true <-> priority_then_score x y.
Proof.
  unfold eviction_order, priority_then_score.
  rewrite orb_true_iff, andb_true_iff, Z.ltb_lt, Z.eqb_eq, Z.leb_le. tauto.
Qed.

Lemma eviction_order_total x y :
  eviction_order x y = true \/ eviction_order y x = true.
Proof. rewrite !eviction_order_iff. unfold priority_then_score. lia. Qed.

Lemma sort_by_priority_then_score (l : list candidate) :
  StronglySorted priority_then_score (PyList.sort eviction_order l).
Proof.
  assert (Hs : StronglySorted (fun x y => eviction_order x y = true)
                 (PyList.sort eviction_order l)).
  { apply Sorted_StronglySorted.
    - intros x y z. rewrite !eviction_order_iff.
      unfold priority_then_score. lia.
    - apply PyListFacts.sort_sorted, eviction_order_total. }
  induction Hs as [|x l' _ IH Hall]; constructor; [exact IH|].
  eapply Forall_impl; [|exact Hall].
  intros y. apply eviction_order_iff.
Qed.

(** The loop deletes in the order of its candidates. *)
Lemma evict_subseq D cur max cands :
  forall st acc freed deleted freed',
    fst (evict D cur max cands st acc freed) = Some (deleted, freed') ->
    exists l, subseq l cands /\ deleted = acc ++ l.
Proof.
  induction cands as [|c rest IH]; intros st acc freed deleted freed'; simpl.
  - intros H. inversion H; subst. exists []. split; [constructor|].
    now rewrite app_nil_r.
  - destruct (cur - freed <=? max).
    { simpl. intros H. inversion H; subst. exists [].
      split; [apply subseq_skip | now rewrite app_nil_r].
      clear. induction rest; constructor; assumption. }
    assert (Hattempt :
      fst (let (ok, st') :=
             delete_resource (D (cand_resource_id c)) st (cand_resource_id c) in
           if ok
           then evict D cur max rest st' (acc ++ [c]) (freed + cand_size c)
           else evict D cur max rest st' acc freed) = Some (deleted, freed') ->
      exists l, subseq l (c :: rest) /\ deleted = acc ++ l).
    { destruct (delete_resource _ st _) as [[|] st'']; intros H.
      - destruct (IH _ _ _ _ _ H) as (l & Hl & ->).
        exists (c :: l). split; [now constructor|].
        now rewrite <- app_assoc.
      - destruct (IH _ _ _ _ _ H) as (l & Hl & ->).
        exists l. split; [now constructor | reflexivity]. }
    destruct (cand_priority c =? 1); [|exact Hattempt].
    destruct (div_lt_1_5 (cur - freed) max) as [[|]|].
    + intros H. destruct (IH _ _ _ _ _ H) as (l & Hl & ->).
      exists l. split; [now constructor | reflexivity].
    + exact Hattempt.
    + discriminate.
Qed.

(** C1: when the total size exceeds the budget and the timestamps of the
    ledger parse, every record becomes a candidate scored
    [access_count*10 + (5 - priority)*100 - age_in_days], with the age the
    whole days since [last_accessed] rounded down; the eviction loop runs
    over the candidates in ascending order of (priority, score), priority 1
    first, and so deletes in that order. *)
Theorem optimize_candidates E D st max_size :
  let budget := default (100 * 1024 * 1024) max_size in
  let total := total_size (resources st) in
  budget < total ->
  (forall id m, In (id, m) (resources st) ->
     fromisoformat (default "1970-01-01T00:00:00" (last_accessed m)) <> None) ->
  exists cands ordered,
    Forall2 (scored (now E)) (resources st) cands /\
    Permutation ordered cands /\
    StronglySorted priority_then_score ordered /\
    optimize_storage E D st max_size =
      conclude total (evict D total budget ordered st [] 0) /\
    (forall n freed final deleted,
        fst (optimize_storage E D st max_size) =
          optimization_completed n freed final deleted ->
        subseq deleted ordered /\
        StronglySorted priority_then_score deleted).
Proof.
  intros budget total Hover Hparse.
  destruct (resources_to_evaluate_total (now E) _ Hparse)
    as (cands & Hc & Hall).
  exists cands, (PyList.sort eviction_order cands).
  assert (Hrun : optimize_storage E D st max_size =
                 conclude total
                   (evict D total budget (PyList.sort eviction_order cands)
                      st [] 0)).
  { unfold optimize_storage. fold total. fold budget.
    destruct (Z.leb_spec total budget) as [Hle|_]; [lia|].
    rewrite Hc. reflexivity. }
  split; [exact Hall|].
  split; [apply PyListFacts.sort_perm|].
  split; [apply sort_by_priority_then_score|].
  split; [exact Hrun|].
  intros n freed final deleted Hrep. rewrite Hrun in Hrep.
  unfold conclude in Hrep.
  destruct (evict D total budget (PyList.sort eviction_order cands) st [] 0)
    as [[[del fr]|] st'] eqn:Hev; simpl in Hrep; [|discriminate].
  inversion Hrep; subst.
  destruct (evict_subseq D total budget (PyList.sort eviction_order cands)
              st [] 0 deleted freed) as (l & Hl & Heq).
  { now rewrite Hev. }
  simpl in Heq. subst l.
  split; [exact Hl|].
  eapply subseq_strongly_sorted; [exact Hl | apply sort_by_priority_then_score].
Qed.




Lemma scored_in t_now d cands c :
  Forall2 (scored t_now) d cands -> In c cands ->
  exists item, In item d /\ scored t_now item c.
Proof.
  induction 1 as [|item c' d cs Hs _ IH]; simpl; [tauto|].
  intros [->|Hin]; [eauto|]. destruct (IH Hin) as (item' & ? & ?). eauto.
Qed.

(** A delete touches the record of its identifier and the file at its
    payload path only. *)
Lemma delete_resource_frame E st id :
  resource_dir (snd (delete_resource E st id)) = resource_dir st /\
  (forall id', id' <> id ->
     PyDict.get id' (resources (snd (delete_resource E st id))) =
       PyDict.get id' (resources st)) /\
  (forall q, q <> _get_file_path st id ->
     files (snd (delete_resource E st id)) q = files st q).
Proof.
  unfold delete_resource.
  destruct (PyDict.get id (resources st)); [|simpl; tauto].
  destruct (files st (_get_file_path st id));
    [destruct (payload_remove_fails E)|];
    simpl; try tauto;
    (split; [reflexivity|]);
    (split; [intros id' Hne; now apply PyDictFacts.get_del_other|]);
    intros q Hq; try reflexivity.
  now apply fs_remove_other.
Qed.



(** From one and a half times the budget on, and within the floats, the
    test answers no. *)
Lemma div_lt_1_5_above a b :
  0 < b -> 3 * b <= 2 * a -> a < (2 ^ 1024 - 2 ^ 970) * b ->
  div_lt_1_5 a b = Some false.
Proof.
  intros Hb Hhigh Hbound. unfold div_lt_1_5, float_overflow.
  destruct (Z.eqb_spec b 0); [lia|].
  rewrite (Z.abs_eq a), (Z.abs_eq b) by lia.
  destruct (Z.leb_spec ((2 ^ 1024 - 2 ^ 970) * b) a) as [Hov|_]; [lia|].
  destruct (Z.ltb_spec 0 b); [|lia].
  f_equal. apply Z.ltb_ge.
  change (2 ^ 53) with (2 * 2 ^ 52). nia.
Qed.



End Optimizing.

(** ** Agreement of the ledger with the payload files *)

Section Consistency.
Context {lib : PyLib}.









End Consistency.

(** ** The properties on sample runs *)

Module Runs.
Import Sample.

#[local] Existing Instance example_lib.

Example three_stored_listing :
  map ri_resource_id (list_resources three_stored None None 1 50) =
  ["low_a"; "low_b"; "critical"].
Proof. vm_compute. reflexivity. Qed.

Example three_stored_optimized :
  fst (optimize_storage (calm (t0 + 10 * day)) (all_calm (t0 + 10 * day))
         three_stored (Some 10)) =
  optimization_completed 1 4 8 [mkCand "low_b" 92 4 4].
Proof. vm_compute. reflexivity. Qed.

(** A store, three reads and an overwrite: the count of reads restarts. *)
Example overwrite_resets_access_count :
  let s1 := snd (store_resource (calm t0) fresh "a" hello "general" 1) in
  let s2 := snd (get_resource (calm (t0 + 1)) s1 "a") in
  let s3 := snd (get_resource (calm (t0 + 2)) s2 "a") in
  let s4 := snd (get_resource (calm (t0 + 3)) s3 "a") in
  let s5 := snd (store_resource (calm (t0 + 4)) s4 "a" blob "general" 1) in
  option_map access_count (PyDict.get "a" (resources s4)) = Some (Some 3) /\
  option_map access_count (PyDict.get "a" (resources s5)) = Some (Some 0) /\
  fst (get_resource (calm (t0 + 5)) s5 "a") = Some [x01; x02; x03; x04] /\
  option_map access_count
    (PyDict.get "a" (resources (snd (get_resource (calm (t0 + 5)) s5 "a")))) =
  Some (Some 1).
Proof. vm_compute. repeat split. Qed.


Lemma sample_timestamps_parse id m :
  In (id, m) (resources three_stored) ->
  fromisoformat (default "1970-01-01T00:00:00" (last_accessed m)) <> None.
Proof.
  intros Hin.
  pose proof (proj1 (forallb_forall
    (fun item : string * meta =>
       match fromisoformat
               (default "1970-01-01T00:00:00" (last_accessed (snd item))) with
       | Some _ => true
       | None => false
       end) (resources three_stored)) eq_refl (id, m) Hin) as H.
  cbn [snd] in H. now destruct (fromisoformat _).
Defined.

Lemma sample_sizes id m :
  In (id, m) (resources three_stored) -> 0 <= default 0 (size m).
Proof.
  intros Hin.
  pose proof (proj1 (forallb_forall
    (fun item : string * meta => 0 <=? default 0 (size (snd item)))
    (resources three_stored)) eq_refl (id, m) Hin) as H.
  cbn [snd] in H. now apply Z.leb_le.
Defined.

Lemma sample_keys : NoDup (map fst (resources three_stored)).
Proof. vm_compute. repeat constructor; simpl; intuition discriminate. Defined.




Lemma optimize_candidates_witness :
  let E := calm (t0 + 10 * day) in
  let D := all_calm (t0 + 10 * day) in
  let total := total_size (resources three_stored) in
  10 < total /\
  exists cands ordered,
    Forall2 (scored (now E)) (resources three_stored) cands /\
    Permutation ordered cands /\
    StronglySorted priority_then_score ordered /\
    optimize_storage E D three_stored (Some 10) =
      conclude total (evict D total 10 ordered three_stored [] 0) /\
    (forall n freed final deleted,
        fst (optimize_storage E D three_stored (Some 10)) =
          optimization_completed n freed final deleted ->
        subseq deleted ordered /\
        StronglySorted priority_then_score deleted).
Proof.
  intros E D total. split; [reflexivity|].
  apply (optimize_candidates E D three_stored (Some 10));
    [reflexivity | exact sample_timestamps_parse].
Defined.


Lemma store_resource_failure_witness :
  fst (store_resource (payload_write_refused t0) fresh "a" hello "general" 1)
    = false /\
  fst (store_resource (ledger_write_refused t0) fresh "a" hello "general" 1)
    = true /\
  PyDict.get "a"
    (resources (snd (store_resource (ledger_write_refused t0) fresh "a" hello
                       "general" 1))) =
  Some (fresh_record (ledger_write_refused t0) [x68; xc3; xa9] "general" 1).
Proof.
  split.
  - apply (proj1 (store_resource_failure (payload_write_refused t0) fresh "a"
                    hello "general" 1)).
    discriminate.
  - apply (proj2 (store_resource_failure (ledger_write_refused t0) fresh "a"
                    hello "general" 1)); reflexivity.
Defined.

Lemma store_get_roundtrip_witness :
  let st1 := snd (store_resource (calm t0) fresh "a" hello "general" 1) in
  (forall s, hello = Text s ->
     exists data, PyStr.encode_utf8 s = Some data /\
                  fst (get_resource (calm (t0 + 1)) st1 "a") = Some data) /\
  (forall b, hello = Binary b ->
     fst (get_resource (calm (t0 + 1)) st1 "a") = Some b).
Proof.
  apply (store_get_roundtrip (calm t0) (calm (t0 + 1)) fresh "a" hello
           "general" 1); reflexivity.
Defined.

Lemma store_installs_fresh_record_witness :
  exists data,
    to_bytes blob = Some data /\
    PyDict.get "config_main"
      (resources (snd (store_resource (calm (t0 + day)) one_stored
                         "config_main" blob "data" 3))) =
    Some (mkMeta (Some (Z.of_nat (List.length data)))
                 (Some (sha256_hexdigest data))
                 (Some "data") (Some 3)
                 (Some (isoformat (now (calm (t0 + day)))))
                 (Some (isoformat (now (calm (t0 + day)))))
                 (Some 0) (Some 1)).
Proof.
  apply (store_installs_fresh_record (calm (t0 + day)) one_stored
           "config_main" blob "data" 3).
  reflexivity.
Defined.

Lemma get_resource_absent_witness :
  get_resource (calm t0) fresh "config_main" = (None, fresh) /\
  (let st' := snd (get_resource (calm (t0 + 1)) orphaned "config_main") in
   fst (get_resource (calm (t0 + 1)) orphaned "config_main") = None /\
   PyDict.get "config_main" (resources st') = None /\
   forall cat ms page pp x,
     In x (list_resources st' cat ms page pp) ->
     ri_resource_id x <> "config_main").
Proof.
  split.
  - apply (proj1 (get_resource_absent (calm t0) fresh "config_main")).
    reflexivity.
  - apply (proj2 (get_resource_absent (calm (t0 + 1)) orphaned "config_main")
             (fresh_record (calm t0) [x68; xc3; xa9] "config" 1));
      reflexivity.
Defined.

Lemma delete_resource_result_witness :
  let st' := snd (delete_resource (calm (t0 + 1)) one_stored "config_main") in
  fst (delete_resource (calm (t0 + 1)) one_stored "config_main") = true /\
  files st' (_get_file_path st' "config_main") = None /\
  PyDict.get "config_main" (resources st') = None /\
  (forall E', fst (get_resource E' st' "config_main") = None) /\
  (forall E', fst (delete_resource E' st' "config_main") = false) /\
  fst (delete_resource (remove_refused (t0 + 1)) one_stored "config_main")
    = false /\
  snd (delete_resource (remove_refused (t0 + 1)) one_stored "config_main")
    = one_stored.
Proof.
  split; [reflexivity|].
  pose proof (proj2 (proj2 (delete_resource_result (calm (t0 + 1)) one_stored
                              "config_main")) eq_refl) as Hok.
  pose proof (proj1 (proj2 (delete_resource_result (remove_refused (t0 + 1))
                              one_stored "config_main")) eq_refl) as Hfail.
  repeat split; solve [apply Hok | exact Hfail].
Defined.


Lemma list_resources_max_size_zero_witness :
  In ("critical", fresh_record (calm t0) [x01; x02; x03; x04] "config" 1)
     (resources three_stored) /\
  In (resource_info_of
        ("critical", fresh_record (calm t0) [x01; x02; x03; x04] "config" 1))
     (list_resources three_stored None (Some 0) 1
        (Z.of_nat (List.length (resources three_stored)))).
Proof.
  assert (Hin : In ("critical",
                    fresh_record (calm t0) [x01; x02; x03; x04] "config" 1)
                   (resources three_stored)) by (now left).
  split; [exact Hin|].
  exact (proj2 (proj2 (list_resources_max_size_zero three_stored None 1 50))
           _ _ Hin).
Defined.

Lemma list_resources_spec_witness :
  exists ordered,
    Permutation ordered
      (map resource_info_of
           (filter (fun item => spec_selected (Some "data") (Some 4) (snd item))
                   (resources three_stored))) /\
    Sorted (fun x y => PyStr.le (recency_key y) (recency_key x) = true)
           ordered /\
    list_resources three_stored (Some "data") (Some 4) 2 1 =
      firstn (Z.to_nat 1) (skipn (Z.to_nat ((2 - 1) * 1)) ordered) /\
    (Z.of_nat (List.length ordered) <= (2 - 1) * 1 ->
     list_resources three_stored (Some "data") (Some 4) 2 1 = []).
Proof.
  apply (list_resources_spec three_stored (Some "data") (Some 4) 2 1); lia.
Defined.


(** C3, as stated, fails: the write of the ledger document is refused (and
    the document stays unwritten), yet the store answers success. *)
Lemma store_succeeds_without_ledger_write :
  let E := ledger_write_refused t0 in
  let result := store_resource E fresh "a" hello "general" 1 in
  ledger_write E <> Done /\
  metadata_file (snd result) = None /\
  fst result = true.
Proof. repeat split. discriminate. Qed.

(** C7, as stated, fails: the identifier has a record, the removal of the
    payload file is refused, and the delete answers failure. *)
Lemma delete_fails_with_record :
  PyDict.get "config_main" (resources one_stored) <> None /\
  fst (delete_resource (remove_refused (t0 + 1)) one_stored "config_main")
    = false.
Proof. split; [discriminate | reflexivity]. Qed.


(** C9, as stated, fails: with [max_size = 0] a record of four bytes is
    listed; with the empty category a record of category ["config"] is
    listed; and page [-1] of length 2, which has no position in a ledger of
    three records, is not empty. *)
Lemma list_resources_ignores_falsy_filters :
  (exists x, In x (list_resources three_stored None (Some 0) 1 50) /\
             0 < ri_size x) /\
  (exists x, In x (list_resources three_stored (Some "") None 1 50) /\
             ri_category x <> "") /\
  map ri_resource_id (list_resources three_stored None None (-1) 2) = ["low_a"].
Proof.
  split; [|split].
  - exists (resource_info_of ("critical", fresh_record (calm t0)
               [x01; x02; x03; x04] "config" 1)).
    split; [vm_compute; tauto | reflexivity].
  - exists (resource_info_of ("critical", fresh_record (calm t0)
               [x01; x02; x03; x04] "config" 1)).
    split; [vm_compute; tauto | discriminate].
  - vm_compute. reflexivity.
Qed.

End Runs.

(** ** Further properties of the manager *)

Section ManagerMore.
Context {lib : PyLib}.

Lemma get_set_set {V : Type} (d : PyDict.dict V) k v1 v2 :
  PyDict.set k v2 (PyDict.set k v1 d) = PyDict.set k v2 d.
Proof.
  induction d as [|[k' v'] d IH]; simpl.
  - now rewrite String.eqb_refl.
  - destruct (String.eqb k' k) eqn:E; simpl.
    + now rewrite String.eqb_refl.
    + now rewrite E, IH.
Qed.

Lemma last_cons {A : Type} (a d : A) (l : list A) :
  last (a :: l) d = last l a.
Proof.
  revert a d. induction l as [|b l IH]; intros a d; [reflexivity|].
  change (last (a :: b :: l) d) with (last (b :: l) d).
  now rewrite !IH.
Qed.

(** The state a get leaves when it finds the record, its count and the
    payload. *)
Lemma get_resource_hit E st id m n data :
  PyDict.get id (resources st) = Some m ->
  access_count m = Some n ->
  files st (_get_file_path st id) = Some data ->
  payload_read_fails E = false ->
  get_resource E st id =
  (Some data,
   _save_metadata E
     (with_resources st
        (PyDict.set id (accessed_record E m n) (resources st)))).
Proof.
  intros Hm Hn Hf Hr. unfold get_resource. rewrite Hm, Hf, Hr, Hn.
  cbn [with_resources resources]. rewrite get_set_set. reflexivity.
Qed.

(** A store touches the record of its identifier and the file at its
    payload path only. *)
Lemma store_resource_frame E st id c cat p :
  resource_dir (snd (store_resource E st id c cat p)) = resource_dir st /\
  (forall id', id' <> id ->
     PyDict.get id' (resources (snd (store_resource E st id c cat p))) =
       PyDict.get id' (resources st)) /\
  (forall q, q <> _get_file_path st id ->
     files (snd (store_resource E st id c cat p)) q = files st q).
Proof.
  unfold store_resource.
  destruct (to_bytes c) as [data|]; [|simpl; tauto].
  destruct (payload_write E); simpl; (split; [reflexivity|]); split;
    try tauto.
  - intros id' Hne. now apply PyDictFacts.get_set_other.
  - intros q Hq. now apply fs_write_other.
  - intros q Hq. now apply fs_write_other.
Qed.


(** X1: a resource stored with success, the ledger document written, is
    served again by a manager restarted on the same directory. *)
Theorem store_survives_restart E1 E2 E3 st id c cat p :
  fst (store_resource E1 st id c cat p) = true ->
  ledger_write E1 = Done ->
  payload_read_fails E3 = false ->
  let st1 := snd (store_resource E1 st id c cat p) in
  exists data,
    to_bytes c = Some data /\
    resources (restart E2 st1) = resources st1 /\
    fst (get_resource E3 (restart E2 st1) id) = Some data.
Proof.
  intros Hok Hsave Hread.
  destruct (store_resource_true _ _ _ _ _ _ Hok) as (data & Hc & Hw).
  rewrite (store_resource_done _ _ _ _ _ _ _ Hc Hw). cbn [snd].
  exists data. split; [exact Hc|].
  unfold restart, init, _save_metadata. rewrite Hsave.
  cbn [metadata_file resources resource_dir files with_resources with_files
       _load_metadata].
  split; [reflexivity|].
  unfold get_resource.
  cbn [resources files]. rewrite PyDictFacts.get_set_same.
  unfold _get_file_path at 1. cbn [resource_dir].
  fold (_get_file_path st id). rewrite fs_write_same, Hread. reflexivity.
Qed.

(** X2: a store answers success also when the ledger document could not be
    written; if the document did not know the identifier, a manager
    restarted on the directory then finds the payload file but no record,
    and a get returns absent. *)
Theorem unsaved_store_lost_on_restart E1 E2 E3 st id c cat p :
  fst (store_resource E1 st id c cat p) = true ->
  ledger_write E1 <> Done ->
  PyDict.get id (_load_metadata (metadata_file st)) = None ->
  let st1 := restart E2 (snd (store_resource E1 st id c cat p)) in
  fst (get_resource E3 st1 id) = None /\
  get_version_info st1 id = None /\
  files st1 (_get_file_path st1 id) <> None.
Proof.
  intros Hok Hsave Hdoc.
  destruct (store_resource_true _ _ _ _ _ _ Hok) as (data & Hc & Hw).
  rewrite (store_resource_done _ _ _ _ _ _ _ Hc Hw). cbn [snd].
  assert (Hnone : PyDict.get id
            (resources (restart E2
               (_save_metadata E1
                  (with_resources
                     (with_files st
                        (fs_write (files st) (_get_file_path st id) data))
                     (PyDict.set id (fresh_record E1 data cat p)
                        (resources st)))))) = None).
  { unfold restart, init, _save_metadata.
    destruct (ledger_write E1); [congruence| |]; cbn;
      [exact Hdoc|reflexivity]. }
  split; [|split].
  - unfold get_resource. now rewrite Hnone.
  - unfold get_version_info. now rewrite Hnone.
  - unfold restart, init, _get_file_path. cbn [files resource_dir].
    rewrite save_files, save_dir. cbn [files resource_dir with_resources
      with_files].
    fold (_get_file_path st id). rewrite fs_write_same. discriminate.
Qed.

(** X3: after a store that answers success, the version lookup reports
    version 1, the digest and the length of the new payload, the time of
    the store as last modification, and the given priority; an overwrite
    does not raise the version. *)
Theorem version_info_after_store E st id c cat p :
  fst (store_resource E st id c cat p) = true ->
  exists data,
    to_bytes c = Some data /\
    get_version_info (snd (store_resource E st id c cat p)) id =
    Some (mkVersion id 1 (Some (sha256_hexdigest data))
                    (Z.of_nat (List.length data))
                    (Some (isoformat (now E))) p).
Proof.
  intros Hok.
  destruct (store_resource_true _ _ _ _ _ _ Hok) as (data & Hc & Hw).
  exists data. split; [exact Hc|].
  rewrite (store_resource_done _ _ _ _ _ _ _ Hc Hw). cbn [snd].
  unfold get_version_info. rewrite save_resources. cbn [resources
    with_resources]. now rewrite PyDictFacts.get_set_same.
Qed.

(** X4: the version lookup does not look at the payload: for a record whose
    payload file is missing it still answers, while a get returns absent;
    after that get the record is gone and the lookup answers nothing. *)
Theorem version_info_ignores_payload E st id m :
  PyDict.get id (resources st) = Some m ->
  files st (_get_file_path st id) = None ->
  get_version_info st id =
    Some (mkVersion id (default 1 (version m)) (hash m) (default 0 (size m))
                    (created m) (default 3 (priority m))) /\
  fst (get_resource E st id) = None /\
  get_version_info (snd (get_resource E st id)) id = None.
Proof.
  intros Hm Hf. unfold get_version_info, get_resource. rewrite Hm, Hf.
  cbn [fst snd]. rewrite save_resources. cbn [resources with_resources].
  now rewrite PyDictFacts.get_del_same.
Qed.

(** X5: reads add up: after [k] gets in a row whose reads do not fail, each
    has returned the payload, the access count has grown by [k], the time
    of the last access is that of the last get, and the other fields and
    the payload are as before. *)
Theorem repeated_gets_count Es st id m n data :
  PyDict.get id (resources st) = Some m ->
  access_count m = Some n ->
  files st (_get_file_path st id) = Some data ->
  Forall (fun E => payload_read_fails E = false) Es ->
  let st' := snd (get_many Es st id) in
  fst (get_many Es st id) = repeat (Some data) (List.length Es) /\
  files st' (_get_file_path st' id) = Some data /\
  PyDict.get id (resources st') =
    Some (mkMeta (size m) (hash m) (category m) (priority m) (created m)
                 (last (map (fun E => Some (isoformat (now E))) Es)
                       (last_accessed m))
                 (Some (n + Z.of_nat (List.length Es))) (version m)).
Proof.
  intros Hm Hn Hf Hall. revert st m n Hm Hn Hf.
  induction Hall as [|E Es HE _ IH]; intros st m n Hm Hn Hf.
  - cbn. rewrite Z.add_0_r, <- Hn. split; [reflexivity|].
    split; [exact Hf|]. rewrite Hm. now destruct m.
  - cbn [get_many]. rewrite (get_resource_hit E st id m n data Hm Hn Hf HE).
    set (st1 := _save_metadata E _).
    assert (Hm1 : PyDict.get id (resources st1) = Some (accessed_record E m n)).
    { subst st1. rewrite save_resources. cbn [resources with_resources].
      apply PyDictFacts.get_set_same. }
    assert (Hf1 : files st1 (_get_file_path st1 id) = Some data).
    { subst st1. rewrite save_files, save_path. exact Hf. }
    specialize (IH st1 (accessed_record E m n) (n + 1) Hm1 eq_refl Hf1).
    destruct (get_many Es st1 id) as [rest st2]. cbn [fst snd] in *.
    destruct IH as (Hrest & Hf2 & Hm2).
    split; [now rewrite Hrest|]. split; [exact Hf2|].
    rewrite Hm2. cbn [accessed_record size hash category priority created
      last_accessed version map].
    rewrite last_cons.
    replace (n + 1 + Z.of_nat (List.length Es))
      with (n + Z.of_nat (List.length (E :: Es)))
      by (cbn [List.length]; lia).
    reflexivity.
Qed.

(** X6: a get on a record that has no ['access_count'] key (a ledger not
    written by this code) returns absent although the payload is there; the
    time of the last access is set in memory, but the ledger document is
    not written. *)
Theorem get_without_access_count E st id m data :
  PyDict.get id (resources st) = Some m ->
  access_count m = None ->
  files st (_get_file_path st id) = Some data ->
  payload_read_fails E = false ->
  let st' := snd (get_resource E st id) in
  fst (get_resource E st id) = None /\
  PyDict.get id (resources st') =
    Some (mkMeta (size m) (hash m) (category m) (priority m) (created m)
                 (Some (isoformat (now E))) None (version m)) /\
  metadata_file st' = metadata_file st /\
  last_updated st' = last_updated st.
Proof.
  intros Hm Hn Hf Hr. unfold get_resource. rewrite Hm, Hf, Hr, Hn.
  cbn [fst snd resources with_resources metadata_file last_updated].
  rewrite PyDictFacts.get_set_same. repeat split.
Qed.


End ManagerMore.

(** ** Further properties of listing and statistics *)

Section ListingMore.
Context {lib : PyLib}.

Lemma listed_unfiltered (d : PyDict.dict meta) :
  listed None None d = map resource_info_of d.
Proof.
  unfold listed. f_equal. induction d as [|item d IH]; [reflexivity|].
  cbn [filter category_mismatch size_exceeds negb andb]. now f_equal.
Qed.

Lemma listed_sizes_perm (l l' : list resource_info) :
  Permutation l l' -> listed_sizes l = listed_sizes l'.
Proof.
  induction 1; unfold listed_sizes in *; simpl; lia.
Qed.

Lemma listed_sizes_total (d : PyDict.dict meta) :
  listed_sizes (map resource_info_of d) = total_size d.
Proof.
  induction d as [|[id m] d IH]; [reflexivity|].
  unfold listed_sizes, total_size in *. simpl. now rewrite IH.
Qed.

(** The first page, when it is long enough, is the whole sorted listing. *)
Lemma list_resources_whole st cat ms pp :
  Z.of_nat (List.length (resources st)) <= pp ->
  list_resources st cat ms 1 pp =
  PyList.sort more_recent (listed cat ms (resources st)).
Proof.
  intros Hpp. unfold list_resources.
  set (l := PyList.sort more_recent (listed cat ms (resources st))).
  assert (Hlen : (List.length l <= List.length (resources st))%nat).
  { subst l. rewrite (Permutation_length (PyListFacts.sort_perm _ _)).
    unfold listed. rewrite length_map. apply filter_length_le. }
  replace ((1 - 1) * pp) with 0 by lia.
  rewrite (PyListFacts.slice_window l 0 pp) by lia.
  simpl skipn. apply firstn_all2. lia.
Qed.

(** X8: the number of resources that the statistics report is the number of
    entries of an unfiltered listing on one page that is long enough, and
    the total size reported is the sum of the sizes that listing shows. *)
Theorem stats_match_listing st pp :
  Z.of_nat (List.length (resources st)) <= pp ->
  total_resources (get_usage_stats st) =
    Z.of_nat (List.length (list_resources st None None 1 pp)) /\
  total_size_bytes (get_usage_stats st) =
    listed_sizes (list_resources st None None 1 pp).
Proof.
  intros Hpp. rewrite (list_resources_whole st None None pp Hpp).
  cbn [get_usage_stats total_resources total_size_bytes]. split.
  - rewrite (Permutation_length (PyListFacts.sort_perm _ _)).
    now rewrite listed_unfiltered, length_map.
  - rewrite (listed_sizes_perm _ _ (PyListFacts.sort_perm _ _)).
    now rewrite listed_unfiltered, listed_sizes_total.
Qed.

Lemma count_category_get (acc : PyDict.dict (Z * Z)) item c :
  PyDict.get c (count_category acc item) =
  if in_category c item
  then Some (fst (default (0, 0) (PyDict.get c acc)) + 1,
             snd (default (0, 0) (PyDict.get c acc))
               + default 0 (size (snd item)))
  else PyDict.get c acc.
Proof.
  unfold count_category, in_category.
  destruct (String.eqb_spec (default "unknown" (category (snd item))) c)
    as [Heq|Hne].
  - rewrite Heq.
    destruct (default (0, 0) (PyDict.get c acc)) as [n0 s0].
    now rewrite PyDictFacts.get_set_same.
  - destruct (default (0, 0) (PyDict.get _ acc)) as [n0 s0].
    rewrite PyDictFacts.get_set_other by congruence. reflexivity.
Qed.

Lemma count_category_fold (d : PyDict.dict meta) :
  forall (acc : PyDict.dict (Z * Z)) (c : string),
    PyDict.get c (fold_left count_category d acc) =
    match filter (in_category c) d with
    | [] => PyDict.get c acc
    | _ :: _ =>
        Some (fst (default (0, 0) (PyDict.get c acc))
                + Z.of_nat (List.length (filter (in_category c) d)),
              snd (default (0, 0) (PyDict.get c acc))
                + total_size (filter (in_category c) d))
    end.
Proof.
  induction d as [|item d IH]; intros acc c; [reflexivity|].
  cbn [fold_left filter]. rewrite IH, count_category_get.
  destruct (in_category c item).
  - cbn [default fst snd].
    destruct (filter (in_category c) d) as [|x ms]; f_equal; f_equal;
      unfold total_size; cbn [List.length fold_right]; lia.
  - reflexivity.
Qed.

(** X9: the category breakdown of the statistics is exact: a category
    appears in it when some record has it (a record without category under
    ['unknown']), with the number of those records and the sum of their
    sizes. *)
Theorem stats_categories_exact st c :
  PyDict.get c (categories (get_usage_stats st)) =
  match filter (in_category c) (resources st) with
  | [] => None
  | _ :: _ =>
      Some (Z.of_nat (List.length (filter (in_category c) (resources st))),
            total_size (filter (in_category c) (resources st)))
  end.
Proof.
  cbn [get_usage_stats categories]. rewrite count_category_fold.
  destruct (filter (in_category c) (resources st)); reflexivity.
Qed.

Lemma strongly_sorted_impl {A : Type} (R R' : A -> A -> Prop) (l : list A) :
  (forall x y, R x y -> R' x y) -> StronglySorted R l -> StronglySorted R' l.
Proof.
  intros Himp. induction 1 as [|x l _ IH Hall]; constructor; [exact IH|].
  eapply Forall_impl; [|exact Hall]. intros y. apply Himp.
Qed.

Lemma strongly_sorted_app {A : Type} (R : A -> A -> Prop) (l1 l2 : list A) :
  StronglySorted R (l1 ++ l2) ->
  StronglySorted R l1 /\
  forall x y, In x l1 -> In y l2 -> R x y.
Proof.
  induction l1 as [|a l1 IH]; simpl; intros Hs.
  - split; [constructor | tauto].
  - apply StronglySorted_inv in Hs. destruct Hs as [Hs Hall].
    destruct (IH Hs) as [Hs1 Hcross].
    rewrite Forall_app in Hall. destruct Hall as [H1 H2].
    split; [now constructor|].
    intros x y [->|Hx] Hy; [|auto].
    rewrite Forall_forall in H2. auto.
Qed.

(** X10: [most_accessed] holds the ten records read most often (all of
    them when there are fewer), in descending order of access count: it is
    sorted, and no record left out has a higher count than one kept. *)
Theorem most_accessed_top_ten st :
  let top := most_accessed (get_usage_stats st) in
  List.length top = Nat.min 10 (List.length (resources st)) /\
  exists rest,
    Permutation (top ++ rest) (map access_pair (resources st)) /\
    StronglySorted (fun x y => snd y <= snd x) top /\
    forall x y, In x top -> In y rest -> snd y <= snd x.
Proof.
  cbn [get_usage_stats most_accessed].
  change (map (fun item : string * meta =>
                 (fst item, default 0 (access_count (snd item))))
              (resources st))
    with (map access_pair (resources st)).
  set (order := fun x y : string * Z => snd y <=? snd x).
  set (sorted := PyList.sort order (map access_pair (resources st))).
  assert (Hperm : Permutation sorted (map access_pair (resources st)))
    by apply PyListFacts.sort_perm.
  assert (Hs : StronglySorted (fun x y => snd y <= snd x) sorted).
  { assert (H : StronglySorted (PyList.precedes order) sorted).
    { apply Sorted_StronglySorted.
      - intros x y z. unfold PyList.precedes, order.
        rewrite !Z.leb_le. lia.
      - apply PyListFacts.sort_sorted. intros x y. unfold order.
        rewrite !Z.leb_le. lia. }
    apply (strongly_sorted_impl (PyList.precedes order)); [|exact H].
    intros x y. unfold PyList.precedes, order. now rewrite Z.leb_le. }
  split.
  - rewrite length_firstn. f_equal.
    rewrite (Permutation_length Hperm). apply length_map.
  - exists (skipn 10 sorted). rewrite firstn_skipn.
    split; [exact Hperm|].
    rewrite <- (firstn_skipn 10 sorted) in Hs.
    apply strongly_sorted_app in Hs. exact Hs.
Qed.

(** X11: for a page number of at least 1 and a page length that is not
    negative, a page holds [per_page] entries, or what is left of the
    selected records after the pages before it when that is less. *)
Theorem list_resources_page_length st cat ms page pp :
  1 <= page -> 0 <= pp ->
  let n :=
    Z.of_nat (List.length
                (filter (fun item => spec_selected cat ms (snd item))
                        (resources st))) in
  Z.of_nat (List.length (list_resources st cat ms page pp)) =
  Z.min pp (Z.max 0 (n - (page - 1) * pp)).
Proof.
  intros Hpage Hpp n. unfold list_resources.
  rewrite PyListFacts.slice_window by nia.
  rewrite length_firstn, length_skipn.
  rewrite (Permutation_length (PyListFacts.sort_perm _ _)).
  unfold listed. rewrite length_map.
  erewrite filter_ext; [fold n|intros item; apply kept_iff_selected].
  subst n. set (k := List.length _). nia.
Qed.

(** X12: page 0 is empty for every page length that is not negative, and a
    page length of 0 gives an empty page for every page number. *)
Theorem list_resources_empty_pages st cat ms page pp :
  (0 <= pp -> list_resources st cat ms 0 pp = []) /\
  list_resources st cat ms page 0 = [].
Proof.
  split.
  - intros Hpp. unfold list_resources, PyList.slice, PyList.slice_index.
    set (len := Z.of_nat _).
    replace ((0 - 1) * pp + pp) with 0 by lia.
    assert (0 <= len) by (subst len; lia).
    destruct ((0 - 1) * pp <? 0) eqn:E1; cbn [Z.ltb Z.compare];
      rewrite (Z.min_l 0 len) by lia.
    + replace (Z.to_nat (0 - Z.max 0 ((0 - 1) * pp + len))) with O by lia.
      reflexivity.
    + apply Z.ltb_ge in E1.
      replace (Z.to_nat (0 - Z.min ((0 - 1) * pp) len)) with O by lia.
      reflexivity.
  - unfold list_resources.
    replace ((page - 1) * 0) with 0 by lia.
    rewrite (PyListFacts.slice_window _ 0 0) by lia. reflexivity.
Qed.

Lemma insert_filter {A : Type} (before : A -> A -> bool) (p : A -> bool)
  (x : A) (l : list A) :
  (forall a b, p a = true -> p b = true -> before a b = true) ->
  filter p (PyList.insert before x l) = filter p (x :: l).
Proof.
  intros Hties. induction l as [|y l IH]; [reflexivity|].
  cbn [PyList.insert]. destruct (before x y) eqn:Hxy; [reflexivity|].
  cbn [filter] in *. rewrite IH.
  destruct (p x) eqn:Hpx; [|reflexivity].
  destruct (p y) eqn:Hpy; [|reflexivity].
  rewrite (Hties x y Hpx Hpy) in Hxy. discriminate.
Qed.

Lemma sort_filter {A : Type} (before : A -> A -> bool) (p : A -> bool)
  (l : list A) :
  (forall a b, p a = true -> p b = true -> before a b = true) ->
  filter p (PyList.sort before l) = filter p l.
Proof.
  intros Hties. induction l as [|x l IH]; [reflexivity|].
  cbn [PyList.sort]. rewrite insert_filter by exact Hties.
  cbn [filter]. now rewrite IH.
Qed.

(** X13: the listing is stable: the records that share a timestamp key come
    in the order of the ledger. *)
Theorem list_resources_stable st cat ms pp key :
  Z.of_nat (List.length (resources st)) <= pp ->
  filter (fun x => String.eqb (recency_key x) key)
         (list_resources st cat ms 1 pp) =
  filter (fun x => String.eqb (recency_key x) key)
         (listed cat ms (resources st)).
Proof.
  intros Hpp. rewrite (list_resources_whole st cat ms pp Hpp).
  apply sort_filter. intros a b Ha Hb.
  apply String.eqb_eq in Ha, Hb. unfold more_recent, PyStr.le.
  rewrite Ha, Hb. unfold String.leb.
  destruct (String.compare key key) eqn:Hc; try reflexivity.
  pose proof (String.compare_antisym key key) as H.
  rewrite Hc in H. discriminate.
Qed.

End ListingMore.

(** ** Further properties of the optimization *)

Section OptimizingMore.
Context {lib : PyLib}.

Lemma delete_resource_ok E st id :
  PyDict.get id (resources st) <> None ->
  payload_remove_fails E = false ->
  fst (delete_resource E st id) = true.
Proof.
  intros Hm Hr. unfold delete_resource.
  destruct (PyDict.get id (resources st)); [|congruence].
  destruct (files st (_get_file_path st id)); [rewrite Hr|]; reflexivity.
Qed.

Lemma subseq_nil_l {A : Type} (l : list A) : subseq [] l.
Proof. induction l; constructor; assumption. Qed.

Lemma payload_of_dir st1 st l p :
  resource_dir st1 = resource_dir st -> payload_of st1 l p = payload_of st l p.
Proof.
  intros Hdir. unfold payload_of, _get_file_path. now rewrite Hdir.
Qed.

(** What the eviction loop has done when it stops: the candidates [l] it
    deleted, in order. *)
Lemma evict_effect D cur max cands :
  forall st acc freed,
    let r := evict D cur max cands st acc freed in
    exists l,
      subseq l cands /\
      (fst r = None \/ fst r = Some (acc ++ l, freed + cand_sizes l)) /\
      resource_dir (snd r) = resource_dir st /\
      resources (snd r) = without l (resources st) /\
      forall p, files (snd r) p =
                if payload_of st l p then None else files st p.
Proof.
  induction cands as [|c rest IH]; intros st acc freed; cbn [evict].
  - exists []. cbn. rewrite app_nil_r, Z.add_0_r.
    repeat split; auto. constructor.
  - assert (Hstop : exists l,
              subseq l (c :: rest) /\
              (fst (Some (acc, freed), st) = None \/
               fst (Some (acc, freed), st) =
                 Some (acc ++ l, freed + cand_sizes l)) /\
              resource_dir (snd (Some (acc, freed), st)) = resource_dir st /\
              resources (snd (Some (acc, freed), st)) =
                without l (resources st) /\
              forall p, files (snd (Some (acc, freed), st)) p =
                        if payload_of st l p then None else files st p).
    { exists []. cbn. rewrite app_nil_r, Z.add_0_r.
      repeat split; auto. apply subseq_nil_l. }
    assert (Hskip : let r := evict D cur max rest st acc freed in
              exists l,
                subseq l (c :: rest) /\
                (fst r = None \/ fst r = Some (acc ++ l, freed + cand_sizes l)) /\
                resource_dir (snd r) = resource_dir st /\
                resources (snd r) = without l (resources st) /\
                forall p, files (snd r) p =
                          if payload_of st l p then None else files st p).
    { destruct (IH st acc freed) as (l & Hl & Hr). exists l.
      split; [now constructor | exact Hr]. }
    assert (Hattempt :
      let r := (let (ok, st') :=
                  delete_resource (D (cand_resource_id c)) st
                                  (cand_resource_id c) in
                if ok
                then evict D cur max rest st' (acc ++ [c])
                           (freed + cand_size c)
                else evict D cur max rest st' acc freed) in
      exists l,
        subseq l (c :: rest) /\
        (fst r = None \/ fst r = Some (acc ++ l, freed + cand_sizes l)) /\
        resource_dir (snd r) = resource_dir st /\
        resources (snd r) = without l (resources st) /\
        forall p, files (snd r) p =
                  if payload_of st l p then None else files st p).
    { destruct (fst (delete_resource (D (cand_resource_id c)) st
                       (cand_resource_id c))) eqn:Hok.
      - destruct (delete_resource_true _ _ _ Hok) as (fs & Hst & Hfs & Hother).
        destruct (delete_resource _ st _) as [ok st1]. cbn [fst snd] in *.
        subst ok.
        destruct (IH st1 (acc ++ [c]) (freed + cand_size c))
          as (l & Hl & Hres & Hdir & Hrec & Hfiles).
        exists (c :: l). split; [now constructor|].
        split; [|split; [|split]].
        + rewrite <- app_assoc in Hres. cbn [app] in Hres.
          unfold cand_sizes in *. cbn [fold_right].
          rewrite Z.add_assoc. exact Hres.
        + rewrite Hdir, Hst. reflexivity.
        + rewrite Hrec, Hst. reflexivity.
        + intros p. rewrite Hfiles.
          rewrite (payload_of_dir st1 st) by (rewrite Hst; reflexivity).
          unfold payload_of. cbn [existsb].
          destruct (existsb _ l); [now rewrite orb_true_r|].
          rewrite orb_false_r, Hst. cbn [files with_resources with_files
            _save_metadata].
          destruct (String.eqb_spec (_get_file_path st (cand_resource_id c)) p)
            as [<-|Hne]; [exact Hfs|].
          apply Hother. congruence.
      - pose proof (delete_resource_false _ _ _ Hok) as Hst.
        destruct (delete_resource _ st _) as [ok st1]. cbn [fst snd] in *.
        subst ok st1.
        destruct (IH st acc freed) as (l & Hl & Hr). exists l.
        split; [now constructor | exact Hr]. }
    destruct (cur - freed <=? max); [exact Hstop|].
    destruct (cand_priority c =? 1); [|exact Hattempt].
    destruct (div_lt_1_5 (cur - freed) max) as [[|]|];
      [exact Hskip | exact Hattempt|].
    exists []. cbn. repeat split; auto. apply subseq_nil_l.
Qed.


Lemma resources_to_evaluate_scored t_now d cands :
  resources_to_evaluate t_now d = Some cands -> Forall2 (scored t_now) d cands.
Proof.
  revert cands. induction d as [|item d IH]; cbn [resources_to_evaluate];
    intros cands Hc.
  - inversion Hc. constructor.
  - destruct (evaluate t_now item) as [c|] eqn:Hev; [|discriminate].
    destruct (resources_to_evaluate t_now d) as [cs|]; [|discriminate].
    inversion Hc; subst. constructor; [now apply evaluate_scored | auto].
Qed.

Lemma scored_ids t_now d cands :
  Forall2 (scored t_now) d cands -> map cand_resource_id cands = map fst d.
Proof.
  induction 1 as [|item c d cs Hs _ IH]; [reflexivity|].
  cbn [map]. rewrite IH. f_equal.
  destruct Hs as (? & ? & _ & _ & Hid & _). exact Hid.
Qed.

(** A completed optimization, read back from its report. *)
Lemma optimize_completed_inv E D st ms n freed final deleted :
  fst (optimize_storage E D st ms) =
    optimization_completed n freed final deleted ->
  let budget := default (100 * 1024 * 1024) ms in
  let total := total_size (resources st) in
  exists cands,
    budget < total /\
    Forall2 (scored (now E)) (resources st) cands /\
    evict D total budget (PyList.sort eviction_order cands) st [] 0 =
      (Some (deleted, freed), snd (optimize_storage E D st ms)) /\
    n = Z.of_nat (List.length deleted) /\
    final = total - freed.
Proof.
  intros Hrep budget total. revert Hrep. unfold optimize_storage.
  fold total. fold budget.
  destruct (Z.leb_spec total budget) as [Hle|Hover]; [discriminate|].
  destruct (resources_to_evaluate (now E) (resources st)) as [cands|] eqn:Hc;
    [|discriminate].
  exists cands. split; [exact Hover|].
  split; [now apply resources_to_evaluate_scored|].
  destruct (evict D total budget (PyList.sort eviction_order cands) st [] 0)
    as [[[del fr]|] st']; cbn [fst snd] in *; [|discriminate].
  inversion Hrep; subst. repeat split.
Qed.

Lemma get_without l : forall (d : PyDict.dict meta) id,
  PyDict.get id (without l d) =
  if existsb (fun c => String.eqb (cand_resource_id c) id) l
  then None else PyDict.get id d.
Proof.
  induction l as [|c l IH]; intros d id; [reflexivity|].
  cbn [without fold_left existsb].
  fold (without l (PyDict.del (cand_resource_id c) d)).
  rewrite IH.
  destruct (existsb _ l); [now rewrite orb_true_r|]. rewrite orb_false_r.
  destruct (String.eqb_spec (cand_resource_id c) id) as [->|Hne].
  - apply PyDictFacts.get_del_same.
  - apply PyDictFacts.get_del_other. congruence.
Qed.

(** X14: the report of a completed optimization adds up: the count is the
    number of deleted resources, the freed space is the sum of their sizes,
    the final size is the total at the start less the freed space, and the
    deletions are listed in ascending order of (priority, score). *)
Theorem optimize_report_adds_up E D st ms n freed final deleted :
  fst (optimize_storage E D st ms) =
    optimization_completed n freed final deleted ->
  n = Z.of_nat (List.length deleted) /\
  freed = cand_sizes deleted /\
  final = total_size (resources st) - cand_sizes deleted /\
  StronglySorted priority_then_score deleted.
Proof.
  intros Hrep.
  destruct (optimize_completed_inv _ _ _ _ _ _ _ _ Hrep)
    as (cands & _ & _ & Hev & Hn & Hfinal).
  destruct (evict_effect D (total_size (resources st))
              (default (100 * 1024 * 1024) ms)
              (PyList.sort eviction_order cands) st [] 0)
    as (l & Hl & Hres & _).
  rewrite Hev in Hres. cbn [fst app] in Hres.
  destruct Hres as [Hres|Hres]; [discriminate|].
  inversion Hres; subst. repeat split; try lia.
  eapply subseq_strongly_sorted; [exact Hl|].
  apply sort_by_priority_then_score.
Qed.



Lemma in_keys_del {V : Type} (d : PyDict.dict V) k k0 :
  In k0 (map fst (PyDict.del k d)) -> In k0 (map fst d).
Proof.
  induction d as [|[k' v'] d IH]; cbn [PyDict.del map]; [tauto|].
  destruct (String.eqb k' k); cbn [map In fst]; intuition.
Qed.

Lemma nodup_del {V : Type} (d : PyDict.dict V) k :
  NoDup (map fst d) -> NoDup (map fst (PyDict.del k d)).
Proof.
  induction d as [|[k' v'] d IH]; cbn [PyDict.del map fst]; intros Hnd;
    [constructor|].
  inversion Hnd as [|? ? Hnotin Hnd']; subst.
  destruct (String.eqb k' k); [auto|].
  cbn [map fst]. constructor; [|auto].
  intros Hin. apply Hnotin. eapply in_keys_del; eauto.
Qed.

Lemma del_absent {V : Type} (d : PyDict.dict V) k :
  ~ In k (map fst d) -> PyDict.del k d = d.
Proof.
  induction d as [|[k' v'] d IH]; cbn [PyDict.del map fst In]; intros Hnot;
    [reflexivity|].
  destruct (String.eqb_spec k' k) as [->|Hne]; [tauto|].
  f_equal. apply IH. tauto.
Qed.

Lemma in_del_other {V : Type} (d : PyDict.dict V) k k0 v :
  k0 <> k -> In (k0, v) d -> In (k0, v) (PyDict.del k d).
Proof.
  intros Hne. induction d as [|[k' v'] d IH]; cbn [PyDict.del In]; [tauto|].
  intros [Heq|Hin].
  - inversion Heq; subst.
    destruct (String.eqb_spec k0 k) as [->|_]; [congruence | now left].
  - destruct (String.eqb k' k); [auto | right; auto].
Qed.

Lemma total_size_del (d : PyDict.dict meta) id m :
  NoDup (map fst d) -> In (id, m) d ->
  total_size (PyDict.del id d) = total_size d - default 0 (size m).
Proof.
  induction d as [|[k v] d IH]; cbn [map fst In PyDict.del]; [tauto|].
  intros Hnd Hin. inversion Hnd as [|? ? Hnotin Hnd']; subst.
  destruct (String.eqb_spec k id) as [->|Hne].
  - assert (v = m).
    { destruct Hin as [Heq|Hin]; [now inversion Heq|].
      exfalso. apply Hnotin. change id with (fst (id, m)). now apply in_map. }
    subst v. rewrite (del_absent d id Hnotin).
    unfold total_size. cbn [fold_right snd]. lia.
  - destruct Hin as [Heq|Hin]; [inversion Heq; congruence|].
    specialize (IH Hnd' Hin). unfold total_size in *.
    cbn [fold_right snd]. lia.
Qed.

Lemma total_size_without l : forall d : PyDict.dict meta,
  NoDup (map fst d) ->
  NoDup (map cand_resource_id l) ->
  (forall c, In c l ->
     exists m, In (cand_resource_id c, m) d /\
               default 0 (size m) = cand_size c) ->
  total_size (without l d) = total_size d - cand_sizes l.
Proof.
  induction l as [|c l IH]; intros d Hnd Hids Hrec.
  - unfold without, cand_sizes. cbn [fold_left fold_right]. lia.
  - cbn [without fold_left].
    fold (without l (PyDict.del (cand_resource_id c) d)).
    cbn [map] in Hids. inversion Hids as [|? ? Hnotin Hids']; subst.
    destruct (Hrec c (or_introl eq_refl)) as (m & Hm & Hsize).
    rewrite IH; [| now apply nodup_del | exact Hids' |].
    + rewrite (total_size_del d _ m Hnd Hm).
      unfold cand_sizes. cbn [fold_right]. lia.
    + intros c' Hc'. destruct (Hrec c' (or_intror Hc')) as (m' & Hm' & Hs').
      exists m'. split; [|exact Hs'].
      apply in_del_other; [|exact Hm'].
      intros Heq. apply Hnotin. rewrite <- Heq. now apply in_map.
Qed.

Lemma subseq_map {A B : Type} (f : A -> B) (l l0 : list A) :
  subseq l l0 -> subseq (map f l) (map f l0).
Proof. induction 1; cbn [map]; constructor; assumption. Qed.

Lemma subseq_nodup {A : Type} (l l0 : list A) :
  subseq l l0 -> NoDup l0 -> NoDup l.
Proof.
  induction 1 as [|x l l0 Hs IH|x l l0 Hs IH]; intros Hnd.
  - constructor.
  - inversion Hnd; auto.
  - inversion Hnd as [|? ? Hnotin Hnd']; subst. constructor; [|auto].
    intros Hin. apply Hnotin. eapply subseq_in; eauto.
Qed.

(** A completed optimization in full: the candidates, the deleted ones and
    the ledger that is left. *)
Lemma optimize_completed_effect E D st ms n freed final deleted :
  fst (optimize_storage E D st ms) =
    optimization_completed n freed final deleted ->
  let budget := default (100 * 1024 * 1024) ms in
  let total := total_size (resources st) in
  exists cands,
    budget < total /\
    Forall2 (scored (now E)) (resources st) cands /\
    evict D total budget (PyList.sort eviction_order cands) st [] 0 =
      (Some (deleted, freed), snd (optimize_storage E D st ms)) /\
    subseq deleted (PyList.sort eviction_order cands) /\
    freed = cand_sizes deleted /\
    final = total - freed /\
    resources (snd (optimize_storage E D st ms)) =
      without deleted (resources st).
Proof.
  intros Hrep budget total.
  destruct (optimize_completed_inv _ _ _ _ _ _ _ _ Hrep)
    as (cands & Hover & Hscored & Hev & _ & Hfinal).
  destruct (evict_effect D total budget
              (PyList.sort eviction_order cands) st [] 0)
    as (l & Hl & Hres & _ & Hrec & _).
  fold total budget in Hev. rewrite Hev in Hres, Hrec. cbn [fst snd app] in *.
  destruct Hres as [Hres|Hres]; [discriminate|].
  inversion Hres; subst l. exists cands. subst total budget.
  repeat split; try assumption; try lia; congruence.
Qed.

Lemma deleted_from_ledger t_now d cands deleted :
  NoDup (map fst d) ->
  Forall2 (scored t_now) d cands ->
  subseq deleted (PyList.sort eviction_order cands) ->
  NoDup (map cand_resource_id deleted) /\
  forall c, In c deleted ->
    exists m, In (cand_resource_id c, m) d /\
              default 0 (size m) = cand_size c.
Proof.
  intros Hnd Hscored Hsub. split.
  - apply (subseq_nodup _ _ (subseq_map cand_resource_id _ _ Hsub)).
    apply (Permutation_NoDup
             (l := map cand_resource_id cands)).
    + apply Permutation_map, Permutation_sym, PyListFacts.sort_perm.
    + now rewrite (scored_ids _ _ _ Hscored).
  - intros c Hc. apply (subseq_in _ _ Hsub) in Hc.
    apply PyListFacts.sort_in in Hc.
    destruct (scored_in _ _ _ _ Hscored Hc) as ([id m] & Hitem & Hs).
    destruct Hs as (? & ? & _ & _ & Hid & _ & Hsize & _).
    cbn [fst snd] in *. exists m. rewrite Hid. split; [exact Hitem | auto].
Qed.

(** X16: in a ledger without repeated keys, the final size that a completed
    optimization reports is the total size of the records that are left;
    and when that size is within the budget, a second optimization with
    the same budget finds nothing to do and changes nothing. *)
Theorem optimize_final_size_is_real E D E2 D2 st ms n freed final deleted :
  NoDup (map fst (resources st)) ->
  fst (optimize_storage E D st ms) =
    optimization_completed n freed final deleted ->
  let st' := snd (optimize_storage E D st ms) in
  total_size (resources st') = final /\
  (final <= default (100 * 1024 * 1024) ms ->
   optimize_storage E2 D2 st' ms =
   (no_optimization_needed final (default (100 * 1024 * 1024) ms), st')).
Proof.
  intros Hnd Hrep st'.
  destruct (optimize_completed_effect _ _ _ _ _ _ _ _ Hrep)
    as (cands & _ & Hscored & _ & Hsub & Hfreed & Hfinal & Hrec).
  fold st' in Hrec.
  destruct (deleted_from_ledger _ _ _ _ Hnd Hscored Hsub) as [Hids Hin].
  assert (Htotal : total_size (resources st') = final).
  { rewrite Hrec, (total_size_without _ _ Hnd Hids Hin). lia. }
  split; [exact Htotal|].
  intros Hle. unfold optimize_storage. rewrite Htotal.
  destruct (Z.leb_spec final (default (100 * 1024 * 1024) ms)); [|lia].
  reflexivity.
Qed.


Lemma in_has_record {V : Type} (d : PyDict.dict V) k v :
  In (k, v) d -> PyDict.get k d <> None.
Proof.
  induction d as [|[k' v'] d IH]; cbn [In PyDict.get]; [tauto|].
  intros [Heq|Hin]; destruct (String.eqb k' k) eqn:E;
    try discriminate; auto.
  inversion Heq; subst. now rewrite String.eqb_refl in E.
Qed.

Lemma scored_of t_now d cands item :
  Forall2 (scored t_now) d cands -> In item d ->
  exists c, In c cands /\ scored t_now item c.
Proof.
  induction 1 as [|item' c d cs Hs _ IH]; cbn [In]; [tauto|].
  intros [->|Hin]; [eauto|]. destruct (IH Hin) as (c' & ? & ?). eauto.
Qed.

(** When no removal fails, a loop that ends above the budget has deleted
    every candidate that is not of priority 1. *)
Lemma evict_exhaust D cur max :
  (forall id, payload_remove_fails (D id) = false) ->
  forall cands st acc freed deleted freed',
    NoDup (map cand_resource_id cands) ->
    (forall c, In c cands ->
       PyDict.get (cand_resource_id c) (resources st) <> None) ->
    fst (evict D cur max cands st acc freed) = Some (deleted, freed') ->
    max < cur - freed' ->
    forall c, In c cands -> cand_priority c <> 1 -> In c deleted.
Proof.
  intros Hremove.
  induction cands as [|c rest IH];
    intros st acc freed deleted freed' Hids Hrec Hev Hover c0 Hc0 Hprio;
    [destruct Hc0|].
  cbn [evict] in Hev. cbn [map] in Hids.
  inversion Hids as [|? ? Hnotin Hids']; subst.
  destruct (Z.leb_spec (cur - freed) max) as [Hle|_].
  { cbn [fst] in Hev. inversion Hev; subst. lia. }
  assert (Hrest : forall st1,
             resource_dir st1 = resource_dir st ->
             (forall id', id' <> cand_resource_id c ->
                PyDict.get id' (resources st1) = PyDict.get id' (resources st)) ->
             forall c', In c' rest ->
               PyDict.get (cand_resource_id c') (resources st1) <> None).
  { intros st1 _ Hframe c' Hc'. rewrite Hframe; [apply Hrec; now right|].
    intros Heq. apply Hnotin. rewrite <- Heq. now apply in_map. }
  assert (Hattempt :
    fst (let (ok, st') :=
           delete_resource (D (cand_resource_id c)) st (cand_resource_id c) in
         if ok
         then evict D cur max rest st' (acc ++ [c]) (freed + cand_size c)
         else evict D cur max rest st' acc freed) = Some (deleted, freed') ->
    In c0 deleted).
  { pose proof (delete_resource_ok (D (cand_resource_id c)) st
                  (cand_resource_id c) (Hrec c (or_introl eq_refl))
                  (Hremove _)) as Hok.
    pose proof (delete_resource_frame (D (cand_resource_id c)) st
                  (cand_resource_id c)) as (Hdir & Hframe & _).
    destruct (delete_resource _ st _) as [ok st1]. cbn [fst snd] in *.
    subst ok. intros Hev1.
    destruct Hc0 as [<-|Hc0].
    - destruct (evict_subseq _ _ _ _ _ _ _ _ _ Hev1) as (l & _ & ->).
      apply in_or_app. left. apply in_or_app. right. now left.
    - apply (IH st1 (acc ++ [c]) (freed + cand_size c) deleted freed');
        try assumption.
      apply Hrest; [exact Hdir|]. intros id' Hne. now apply Hframe. }
  destruct (Z.eqb_spec (cand_priority c) 1) as [Hone|_]; [|auto].
  destruct (div_lt_1_5 (cur - freed) max) as [[|]|]; [|auto|discriminate].
  destruct Hc0 as [<-|Hc0]; [congruence|].
  apply (IH st acc freed deleted freed'); try assumption.
  intros c' Hc'. apply Hrec. now right.
Qed.

(** X17: in a ledger without repeated keys and when no removal fails, a
    completed optimization ends within the budget, or else it has deleted
    every resource whose priority is not 1. *)
Theorem optimize_reaches_budget_or_exhausts E D st ms n freed final deleted :
  NoDup (map fst (resources st)) ->
  (forall id, payload_remove_fails (D id) = false) ->
  fst (optimize_storage E D st ms) =
    optimization_completed n freed final deleted ->
  final <= default (100 * 1024 * 1024) ms \/
  (forall id m,
      In (id, m) (resources st) ->
      default 3 (priority m) <> 1 ->
      PyDict.get id (resources (snd (optimize_storage E D st ms))) = None).
Proof.
  intros Hnd Hremove Hrep.
  destruct (optimize_completed_effect _ _ _ _ _ _ _ _ Hrep)
    as (cands & _ & Hscored & Hev & Hsub & Hfreed & Hfinal & Hrec).
  destruct (Z_le_gt_dec final (default (100 * 1024 * 1024) ms)) as [Hle|Hgt];
    [now left | right].
  intros id m Hin Hprio.
  destruct (scored_of _ _ _ _ Hscored Hin) as (c & Hc & Hs).
  destruct Hs as (? & ? & _ & _ & Hid & Hp & _). cbn [fst snd] in Hid, Hp.
  assert (Hdel : In c deleted).
  { apply (evict_exhaust D (total_size (resources st))
             (default (100 * 1024 * 1024) ms) Hremove
             (PyList.sort eviction_order cands) st [] 0 deleted freed).
    - apply (Permutation_NoDup (l := map cand_resource_id cands)).
      + apply Permutation_map, Permutation_sym, PyListFacts.sort_perm.
      + now rewrite (scored_ids _ _ _ Hscored).
    - intros c' Hc'. apply PyListFacts.sort_in in Hc'.
      destruct (scored_in _ _ _ _ Hscored Hc') as ([id' m'] & Hitem & Hs').
      destruct Hs' as (? & ? & _ & _ & Hid' & _). cbn [fst] in Hid'.
      rewrite Hid'. eapply in_has_record; eauto.
    - now rewrite Hev.
    - lia.
    - now apply PyListFacts.sort_in.
    - congruence. }
  rewrite Hrec, get_without.
  assert (He : existsb (fun c0 => String.eqb (cand_resource_id c0) id)
                       deleted = true).
  { apply existsb_exists. exists c. split; [exact Hdel|].
    rewrite Hid. apply String.eqb_refl. }
  now rewrite He.
Qed.

(** X18: the scoring loop stops at the first timestamp it cannot parse: when
    the total exceeds the budget and some record has such a timestamp, the
    optimization fails and nothing is deleted. *)
Theorem optimize_fails_on_bad_timestamp E D st ms id m :
  default (100 * 1024 * 1024) ms < total_size (resources st) ->
  In (id, m) (resources st) ->
  fromisoformat (default "1970-01-01T00:00:00" (last_accessed m)) = None ->
  optimize_storage E D st ms = (optimization_failed, st).
Proof.
  intros Hover Hin Hbad. unfold optimize_storage.
  destruct (Z.leb_spec (total_size (resources st))
              (default (100 * 1024 * 1024) ms)); [lia|].
  assert (Hscan : resources_to_evaluate (now E) (resources st) = None).
  { clear -Hin Hbad. induction (resources st) as [|item d IH];
      [destruct Hin|]. cbn [resources_to_evaluate].
    destruct Hin as [->|Hin].
    - unfold evaluate. now rewrite Hbad.
    - destruct (evaluate (now E) item); [|reflexivity].
      now rewrite (IH Hin). }
  now rewrite Hscan.
Qed.


(** With a budget other than 0 the loop never raises. *)
Lemma evict_some D cur max :
  0 < max ->
  cur < (2 ^ 1024 - 2 ^ 970) * max ->
  forall cands st acc freed,
    0 <= freed ->
    Forall (fun c => 0 <= cand_size c) cands ->
    fst (evict D cur max cands st acc freed) <> None.
Proof.
  intros Hmax Hcur.
  induction cands as [|c rest IH]; intros st acc freed Hfreed Hsizes;
    cbn [evict]; [discriminate|].
  inversion Hsizes as [|? ? Hc Hrest]; subst.
  destruct (Z.leb_spec (cur - freed) max) as [_|Hover]; [discriminate|].
  assert (Hattempt :
    fst (let (ok, st') :=
           delete_resource (D (cand_resource_id c)) st (cand_resource_id c) in
         if ok
         then evict D cur max rest st' (acc ++ [c]) (freed + cand_size c)
         else evict D cur max rest st' acc freed) <> None).
  { destruct (delete_resource _ st _) as [[|] st1]; apply IH;
      solve [assumption | lia]. }
  destruct (cand_priority c =? 1); [|exact Hattempt].
  unfold div_lt_1_5, float_overflow.
  destruct (Z.eqb_spec max 0); [lia|].
  rewrite (Z.abs_eq (cur - freed)), (Z.abs_eq max) by lia.
  destruct (Z.leb_spec ((2 ^ 1024 - 2 ^ 970) * max) (cur - freed)); [lia|].
  destruct (0 <? max);
    [destruct (2 ^ 53 * (cur - freed) <? (3 * 2 ^ 52 - 1) * max)
    |destruct ((3 * 2 ^ 52 - 1) * max <? 2 ^ 53 * (cur - freed))];
    solve [apply IH; assumption | exact Hattempt].
Qed.

(** When no priority is below 1 and some record has priority 1, the first
    candidate of the loop has priority 1. *)
Lemma first_candidate_critical t_now d cands :
  Forall2 (scored t_now) d cands ->
  (forall id m, In (id, m) d -> 1 <= default 3 (priority m)) ->
  (exists id m, In (id, m) d /\ priority m = Some 1) ->
  exists h t,
    PyList.sort eviction_order cands = h :: t /\
    cand_priority h = 1 /\
    PyDict.get (cand_resource_id h) d <> None.
Proof.
  intros Hscored Hlow (id1 & m1 & Hin1 & Hp1).
  destruct (scored_of _ _ _ _ Hscored Hin1) as (c1 & Hc1 & Hs1).
  destruct Hs1 as (? & ? & _ & _ & _ & Hcp1 & _). cbn [snd] in Hcp1.
  rewrite Hp1 in Hcp1. cbn [default] in Hcp1.
  apply (PyListFacts.sort_in eviction_order) in Hc1.
  pose proof (sort_by_priority_then_score cands) as Hsorted.
  destruct (PyList.sort eviction_order cands) as [|h t] eqn:Hsort;
    [destruct Hc1|].
  exists h, t. split; [reflexivity|].
  assert (Hh : In h cands).
  { apply (PyListFacts.sort_in eviction_order). rewrite Hsort. now left. }
  destruct (scored_in _ _ _ _ Hscored Hh) as ([id m] & Hitem & Hs).
  destruct Hs as (? & ? & _ & _ & Hid & Hcp & _). cbn [fst snd] in Hid, Hcp.
  split.
  - pose proof (Hlow id m Hitem) as Hge.
    apply StronglySorted_inv in Hsorted. destruct Hsorted as [_ Hall].
    rewrite Forall_forall in Hall.
    destruct Hc1 as [->|Hc1]; [exact Hcp1|].
    specialize (Hall c1 Hc1). unfold priority_then_score in Hall. lia.
  - rewrite Hid. eapply in_has_record; eauto.
Qed.

(** X19: a budget of 0 makes the protection test divide by zero: when the
    ledger is not empty of bytes, the timestamps parse, no priority is
    below 1 and some record has priority 1, the optimization fails, and
    nothing is deleted. *)
Theorem optimize_zero_budget_fails E D st :
  0 < total_size (resources st) ->
  (forall id m, In (id, m) (resources st) ->
     fromisoformat (default "1970-01-01T00:00:00" (last_accessed m)) <> None) ->
  (forall id m, In (id, m) (resources st) -> 1 <= default 3 (priority m)) ->
  (exists id m, In (id, m) (resources st) /\ priority m = Some 1) ->
  optimize_storage E D st (Some 0) = (optimization_failed, st).
Proof.
  intros Hpos Hparse Hlow Hone. unfold optimize_storage. cbn [default].
  destruct (Z.leb_spec (total_size (resources st)) 0); [lia|].
  destruct (resources_to_evaluate_total (now E) _ Hparse)
    as (cands & Hc & Hscored).
  rewrite Hc.
  destruct (first_candidate_critical _ _ _ Hscored Hlow Hone)
    as (h & t & -> & Hp & _).
  cbn [evict]. rewrite Hp.
  destruct (Z.leb_spec (total_size (resources st) - 0) 0); [lia|].
  reflexivity.
Qed.

(** X20: from one and a half times the budget on, and as long as the
    quotient of the total by the budget is within the floats, protection is
    off and the order decides: when no size is negative, the timestamps
    parse, no priority is below 1, some record has priority 1 and no
    removal fails, the optimization completes and the first resource it
    deletes has priority 1, whatever resources of lower importance the
    ledger holds. *)
Theorem optimize_severe_overage_deletes_critical_first E D st ms :
  let budget := default (100 * 1024 * 1024) ms in
  0 < budget ->
  3 * budget <= 2 * total_size (resources st) ->
  total_size (resources st) < (2 ^ 1024 - 2 ^ 970) * budget ->
  (forall id m, In (id, m) (resources st) -> 0 <= default 0 (size m)) ->
  (forall id m, In (id, m) (resources st) ->
     fromisoformat (default "1970-01-01T00:00:00" (last_accessed m)) <> None) ->
  (forall id m, In (id, m) (resources st) -> 1 <= default 3 (priority m)) ->
  (exists id m, In (id, m) (resources st) /\ priority m = Some 1) ->
  (forall id, payload_remove_fails (D id) = false) ->
  exists n freed final c rest,
    fst (optimize_storage E D st ms) =
      optimization_completed n freed final (c :: rest) /\
    cand_priority c = 1.
Proof.
  intros budget Hbudget Hsevere Hfloat Hsizes Hparse Hlow Hone Hremove.
  unfold optimize_storage. fold budget.
  destruct (Z.leb_spec (total_size (resources st)) budget); [lia|].
  destruct (resources_to_evaluate_total (now E) _ Hparse)
    as (cands & Hc & Hscored).
  rewrite Hc.
  assert (Hcs : Forall (fun c => 0 <= cand_size c)
                  (PyList.sort eviction_order cands)).
  { apply Forall_forall. intros c Hin. apply PyListFacts.sort_in in Hin.
    destruct (scored_in _ _ _ _ Hscored Hin) as ([id m] & Hitem & Hs).
    destruct Hs as (? & ? & _ & _ & _ & _ & Hsize & _). rewrite Hsize.
    simpl. eauto. }
  destruct (first_candidate_critical _ _ _ Hscored Hlow Hone)
    as (h & t & Hsorted & Hp & Hrec).
  rewrite Hsorted in Hcs |- *.
  inversion Hcs as [|? ? Hh Ht]; subst.
  cbn [evict]. rewrite Hp. cbn [Z.eqb Pos.eqb].
  destruct (Z.leb_spec (total_size (resources st) - 0) budget); [lia|].
  rewrite (div_lt_1_5_above (total_size (resources st) - 0) budget)
    by (rewrite ?Z.sub_0_r; assumption).
  pose proof (delete_resource_ok (D (cand_resource_id h)) st
                (cand_resource_id h) Hrec (Hremove _)) as Hok.
  destruct (delete_resource _ st _) as [ok st1]. cbn [fst] in Hok. subst ok.
  pose proof (evict_some D (total_size (resources st)) budget
                Hbudget Hfloat t st1 ([] ++ [h]) (0 + cand_size h)
                ltac:(lia) Ht) as Hsome.
  destruct (evict D (total_size (resources st)) budget t st1 ([] ++ [h])
              (0 + cand_size h)) as [[[deleted freed]|] st2] eqn:Hev;
    [|cbn [fst] in Hsome; congruence].
  destruct (evict_subseq D (total_size (resources st)) budget t st1
              ([] ++ [h]) (0 + cand_size h) deleted freed)
    as (l & _ & Hdel).
  { now rewrite Hev. }
  cbn [app] in Hdel. subst deleted. cbn [fst].
  eexists _, _, _, h, l. split; [reflexivity | exact Hp].
Qed.

End OptimizingMore.

(** ** The demonstration resources *)

Section Demo.
Context {lib : PyLib}.

(** A round of the loop leaves alone the record of every identifier but
    its own, and its own too when it has a record; and with it the payload
    file, when both identifiers are plain file names. *)
Lemma create_demo_resource_frame D st r id :
  fst (fst (fst r)) <> id \/ PyDict.get id (resources st) <> None ->
  resource_dir (create_demo_resource D st r) = resource_dir st /\
  PyDict.get id (resources (create_demo_resource D st r)) =
    PyDict.get id (resources st) /\
  (plain_name id -> plain_name (fst (fst (fst r))) ->
   files (create_demo_resource D st r) (_get_file_path st id) =
     files st (_get_file_path st id)).
Proof.
  destruct r as [[[i c] cat] p]. cbn [fst create_demo_resource].
  intros Hcase.
  destruct (PyDict.get i (resources st)) eqn:Hi; [tauto|].
  assert (Hne : id <> i) by (destruct Hcase; congruence).
  pose proof (store_resource_frame (D i) st i c cat p)
    as (Hdir & Hrec & Hfiles).
  split; [exact Hdir|]. split; [now apply Hrec|].
  intros Hid Hpi. apply Hfiles. now apply path_neq.
Qed.

Lemma create_demo_fold_frame D l : forall st id,
  ~ In id (map (fun r => fst (fst (fst r))) l) \/
  PyDict.get id (resources st) <> None ->
  let st' := fold_left (create_demo_resource D) l st in
  resource_dir st' = resource_dir st /\
  PyDict.get id (resources st') = PyDict.get id (resources st) /\
  (plain_name id ->
   Forall (fun r => plain_name (fst (fst (fst r)))) l ->
   files st' (_get_file_path st id) = files st (_get_file_path st id)).
Proof.
  induction l as [|r l IH]; intros st id Hcase; cbn [fold_left]; [tauto|].
  destruct (create_demo_resource_frame D st r id) as (Hdir & Hget & Hfile).
  { cbn [map In] in Hcase. destruct Hcase as [H|H]; [left|right]; tauto. }
  destruct (IH (create_demo_resource D st r) id) as (Hdir' & Hget' & Hfile').
  { cbn [map In] in Hcase. destruct Hcase as [H|H]; [left; tauto|right].
    now rewrite Hget. }
  split; [congruence|]. split; [congruence|].
  intros Hid Hall. inversion Hall as [|? ? Hr Hl]; subst.
  specialize (Hfile Hid Hr). specialize (Hfile' Hid Hl).
  unfold _get_file_path in *. rewrite Hdir in Hfile'. congruence.
Qed.

Lemma demo_ids_plain :
  Forall (fun r : string * content * string * Z =>
            plain_name (fst (fst (fst r)))) demo_resources.
Proof. repeat constructor. Qed.

(** X21: [create_demo_resources] never overwrites: a resource that has a
    record keeps it, whatever its identifier, and keeps its payload file
    when its identifier is a plain file name. *)
Theorem create_demo_keeps_existing D st id m :
  PyDict.get id (resources st) = Some m ->
  PyDict.get id (resources (create_demo_resources D st)) = Some m /\
  (plain_name id ->
   files (create_demo_resources D st)
         (_get_file_path (create_demo_resources D st) id) =
     files st (_get_file_path st id)).
Proof.
  intros Hm. unfold create_demo_resources.
  destruct (create_demo_fold_frame D demo_resources st id)
    as (Hdir & Hget & Hfile).
  { right. congruence. }
  split; [congruence|]. intros Hid.
  specialize (Hfile Hid demo_ids_plain).
  unfold _get_file_path in *. rewrite Hdir. exact Hfile.
Qed.

Lemma demo_contents_convert :
  Forall (fun r => to_bytes (snd (fst (fst r))) <> None) demo_resources.
Proof. repeat constructor; discriminate. Qed.

Lemma demo_ids_differ :
  NoDup (map (fun r : string * content * string * Z => fst (fst (fst r)))
             demo_resources).
Proof. repeat constructor; cbn; intuition discriminate. Qed.

(** X22: [create_demo_resources] creates what is missing: each of the four
    demonstration resources that has no record, and whose payload write
    completes, gets the record of a first store, with its category and
    priority, and its payload file. *)
Theorem create_demo_installs_missing D st id c cat p :
  In (id, c, cat, p) demo_resources ->
  PyDict.get id (resources st) = None ->
  payload_write (D id) = Done ->
  let st' := create_demo_resources D st in
  exists data,
    to_bytes c = Some data /\
    PyDict.get id (resources st') = Some (fresh_record (D id) data cat p) /\
    files st' (_get_file_path st' id) = Some data.
Proof.
  intros Hin Hnone Hw st'.
  assert (Hc : to_bytes c <> None).
  { pose proof demo_contents_convert as H. rewrite Forall_forall in H.
    exact (H _ Hin). }
  destruct (to_bytes c) as [data|] eqn:Hdata; [|congruence].
  exists data. split; [reflexivity|].
  destruct (in_split _ _ Hin) as (l1 & l2 & Hsplit).
  pose proof demo_ids_differ as Hnd. rewrite Hsplit, map_app in Hnd.
  cbn [map fst] in Hnd.
  assert (Hl1 : ~ In id (map (fun r => fst (fst (fst r))) l1)).
  { intros H. apply NoDup_remove_2 in Hnd. apply Hnd.
    apply in_or_app. now left. }
  assert (Hl2 : ~ In id (map (fun r => fst (fst (fst r))) l2)).
  { intros H. apply NoDup_remove_2 in Hnd. apply Hnd.
    apply in_or_app. now right. }
  subst st'. unfold create_demo_resources. rewrite Hsplit, fold_left_app.
  cbn [fold_left].
  destruct (create_demo_fold_frame D l1 st id (or_introl Hl1))
    as (Hdir1 & Hget1 & _).
  set (st1 := fold_left (create_demo_resource D) l1 st) in *.
  assert (Hst2 : create_demo_resource D st1 (id, c, cat, p) =
                 snd (store_resource (D id) st1 id c cat p)).
  { cbn [create_demo_resource]. now rewrite Hget1, Hnone. }
  rewrite Hst2, (store_resource_done _ _ _ _ _ _ _ Hdata Hw). cbn [snd].
  set (st2 := _save_metadata (D id) _).
  destruct (create_demo_fold_frame D l2 st2 id (or_introl Hl2))
    as (Hdir2 & Hget2 & Hfile2).
  cbn zeta in Hdir2, Hget2, Hfile2.
  pose proof demo_ids_plain as Hplain. rewrite Hsplit in Hplain.
  apply Forall_app in Hplain. destruct Hplain as [_ Hplain].
  inversion Hplain as [|? ? Hid Hl2p]; subst. cbn [fst] in Hid.
  specialize (Hfile2 Hid Hl2p).
  unfold _get_file_path in *. rewrite Hdir2. split.
  - rewrite Hget2. subst st2. rewrite save_resources.
    cbn [resources with_resources]. apply PyDictFacts.get_set_same.
  - rewrite Hfile2. subst st2. rewrite save_files, save_dir.
    cbn [files resource_dir with_resources with_files].
    apply fs_write_same.
Qed.

End Demo.

(** ** The request handlers *)

Section Utf8.

Ltac Zify.zify_post_hook ::= Z.to_euclidean_division_equations.

Lemma byte_to_of (n : N) :
  (n < 256)%N -> Byte.to_N (PyStr.byte_of_N n) = n.
Proof.
  intros Hn. unfold PyStr.byte_of_N.
  destruct (Byte.of_N n) as [b|] eqn:E.
  - now apply Byte.to_of_N.
  - apply Byte.of_N_None_iff in E. lia.
Qed.

Lemma continuation_of (n : N) :
  (n < 64)%N -> PyBytes.continuation (PyStr.byte_of_N (128 + n)) = Some n.
Proof.
  intros Hn. unfold PyBytes.continuation. rewrite byte_to_of by lia.
  destruct (N.leb_spec 128 (128 + n)); [|lia].
  destruct (N.ltb_spec (128 + n) 192); [|lia].
  cbn [andb]. f_equal. lia.
Qed.

Lemma some_inj {A : Type} (a b : A) : Some a = Some b -> a = b.
Proof. congruence. Qed.

(** Decoding undoes the encoding of one code point. *)
Lemma decode_encode_char (c : N) (bs rest : bytes) :
  PyStr.utf8_encode_char c = Some bs ->
  PyBytes.decode_utf8 (bs ++ rest) =
  option_map (cons c) (PyBytes.decode_utf8 rest).
Proof.
  unfold PyStr.utf8_encode_char.
  destruct (N.ltb_spec c 128) as [H1|H1].
  { intros H. apply some_inj in H. subst bs. cbn [app PyBytes.decode_utf8].
    rewrite byte_to_of by lia.
    destruct (N.ltb_spec c 128); [reflexivity | lia]. }
  destruct (N.ltb_spec c 2048) as [H2|H2].
  { intros H. apply some_inj in H. subst bs. cbn [app PyBytes.decode_utf8].
    rewrite byte_to_of by lia.
    destruct (N.ltb_spec (192 + c / 64) 128); [lia|].
    destruct (N.ltb_spec (192 + c / 64) 192); [lia|].
    destruct (N.ltb_spec (192 + c / 64) 224); [|lia].
    rewrite continuation_of by lia.
    replace ((192 + c / 64 - 192) * 64 + c mod 64)%N with c by lia.
    destruct (N.ltb_spec c 128); [lia | reflexivity]. }
  destruct (N.ltb_spec c 65536) as [H3|H3].
  { destruct ((55296 <=? c)%N && (c <=? 57343)%N) eqn:Hsur; [discriminate|].
    intros H. apply some_inj in H. subst bs. cbn [app PyBytes.decode_utf8].
    rewrite byte_to_of by lia.
    destruct (N.ltb_spec (224 + c / 4096) 128); [lia|].
    destruct (N.ltb_spec (224 + c / 4096) 192); [lia|].
    destruct (N.ltb_spec (224 + c / 4096) 224); [lia|].
    destruct (N.ltb_spec (224 + c / 4096) 240); [|lia].
    rewrite !continuation_of by lia.
    replace ((224 + c / 4096 - 224) * 4096 + (c / 64) mod 64 * 64
             + c mod 64)%N with c by lia.
    rewrite Hsur.
    destruct (N.ltb_spec c 2048); [lia | reflexivity]. }
  destruct (N.ltb_spec c 1114112) as [H4|H4]; [|discriminate].
  intros H. apply some_inj in H. subst bs. cbn [app PyBytes.decode_utf8].
  rewrite byte_to_of by lia.
  destruct (N.ltb_spec (240 + c / 262144) 128); [lia|].
  destruct (N.ltb_spec (240 + c / 262144) 192); [lia|].
  destruct (N.ltb_spec (240 + c / 262144) 224); [lia|].
  destruct (N.ltb_spec (240 + c / 262144) 240); [lia|].
  destruct (N.ltb_spec (240 + c / 262144) 248); [|lia].
  rewrite !continuation_of by lia.
  replace ((240 + c / 262144 - 240) * 262144 + (c / 4096) mod 64 * 4096
           + (c / 64) mod 64 * 64 + c mod 64)%N with c by lia.
  destruct (N.ltb_spec c 65536); [lia|].
  destruct (N.ltb_spec 1114111 c); [lia | reflexivity].
Qed.

(** Decoding undoes encoding. *)
Lemma decode_encode_utf8 (s : list N) (data : bytes) :
  PyStr.encode_utf8 s = Some data -> PyBytes.decode_utf8 data = Some s.
Proof.
  revert data. induction s as [|c s IH]; intros data; cbn [PyStr.encode_utf8].
  - intros H. now inversion H.
  - destruct (PyStr.utf8_encode_char c) as [bs|] eqn:Hc; [|discriminate].
    destruct (PyStr.encode_utf8 s) as [rest|]; [|discriminate].
    intros H. inversion H; subst.
    rewrite (decode_encode_char c bs rest Hc), (IH rest eq_refl). reflexivity.
Qed.

(** A text that is not empty has an encoding that is not empty. *)
Lemma encode_utf8_nonempty (s : list N) (data : bytes) :
  PyStr.encode_utf8 s = Some data -> s <> [] -> data <> [].
Proof.
  destruct s as [|c s]; [congruence|]. cbn [PyStr.encode_utf8].
  destruct (PyStr.utf8_encode_char c) as [bs|] eqn:Hc; [|discriminate].
  destruct (PyStr.encode_utf8 s) as [rest|]; [|discriminate].
  intros H _. inversion H; subst.
  unfold PyStr.utf8_encode_char in Hc.
  destruct (c <? 128)%N; [inversion Hc; discriminate|].
  destruct (c <? 2048)%N; [inversion Hc; discriminate|].
  destruct (c <? 65536)%N.
  - destruct ((55296 <=? c)%N && (c <=? 57343)%N);
      [discriminate | inversion Hc; discriminate].
  - destruct (c <? 1114112)%N; [inversion Hc; discriminate | discriminate].
Qed.

End Utf8.

Section HandlersMore.
Context {lib : PyLib}.
Variable gzip_compress : bytes -> bytes.

(** An upload that names an identifier and a content answers 201 exactly
    when the store answers success. *)
Lemma http_upload_created E srv id c cat p :
  fst (store_resource E (manager srv) id c (default "general" cat)
         (default 1 p)) = true ->
  http_upload_resource E srv (Some (mkUpload (Some id) (Some c) cat p)) =
  ((json_message "Resource uploaded successfully" id, 201),
   mkServer (snd (store_resource E (manager srv) id c (default "general" cat)
                    (default 1 p)))
            (access_log srv)).
Proof.
  intros Hok. cbn [http_upload_resource].
  destruct (store_resource E (manager srv) id c _ _) as [ok st1].
  cbn [fst snd] in *. now subst ok.
Qed.

(** What a get finds right after a store that answered success. *)
Lemma get_after_store E1 E2 st id c cat p :
  fst (store_resource E1 st id c cat p) = true ->
  payload_read_fails E2 = false ->
  exists data,
    to_bytes c = Some data /\
    get_resource E2 (snd (store_resource E1 st id c cat p)) id =
    (Some data,
     _save_metadata E2
       (with_resources (snd (store_resource E1 st id c cat p))
          (PyDict.set id (accessed_record E2 (fresh_record E1 data cat p) 0)
             (resources (snd (store_resource E1 st id c cat p)))))).
Proof.
  intros Hok Hread.
  destruct (store_resource_true _ _ _ _ _ _ Hok) as (data & Hc & Hw).
  exists data. split; [exact Hc|].
  rewrite (store_resource_done _ _ _ _ _ _ _ Hc Hw). cbn [snd].
  apply get_resource_hit; [| reflexivity | | exact Hread].
  - rewrite save_resources. cbn [resources with_resources].
    apply PyDictFacts.get_set_same.
  - rewrite save_files, save_path. cbn [files with_resources with_files].
    unfold _get_file_path. cbn [resource_dir with_files].
    apply fs_write_same.
Qed.

(** X23: a text that was uploaded with success comes back from the GET
    handler: for a text that is not empty, and a payload of at most 512
    bytes or no compression asked, the handler answers 200 with the text
    and the length of its UTF-8 encoding, and adds one line to the access
    log. *)
Theorem http_upload_get_roundtrip E1 E2 srv id s cat p compress addr :
  snd (fst (http_upload_resource E1 srv
              (Some (mkUpload (Some id) (Some (Text s)) cat p)))) = 201 ->
  s <> [] ->
  payload_read_fails E2 = false ->
  let srv1 :=
    snd (http_upload_resource E1 srv
           (Some (mkUpload (Some id) (Some (Text s)) cat p))) in
  exists data,
    PyStr.encode_utf8 s = Some data /\
    (compress = false \/ Z.of_nat (List.length data) <= 512 ->
     let r := http_get_resource gzip_compress E2 false srv1 id compress addr in
     fst r = (json_resource id s (Z.of_nat (List.length data)), 200) /\
     access_log (snd r) =
       access_log srv ++ [mkLog (isoformat (now E2)) id addr]).
Proof.
  intros Hcreated Hs Hread.
  assert (Hok : fst (store_resource E1 (manager srv) id (Text s)
                       (default "general" cat) (default 1 p)) = true).
  { revert Hcreated. cbn [http_upload_resource].
    destruct (store_resource E1 (manager srv) id (Text s) _ _) as [[|] st1];
      cbn [fst snd]; [reflexivity | discriminate]. }
  rewrite (http_upload_created _ _ _ _ _ _ Hok). cbn [snd].
  destruct (get_after_store E1 E2 _ _ _ _ _ Hok Hread) as (data & Hc & Hget).
  cbn [to_bytes] in Hc. exists data. split; [exact Hc|].
  intros Hsmall. unfold http_get_resource. cbn [manager access_log].
  rewrite Hget.
  pose proof (encode_utf8_nonempty _ _ Hc Hs) as Hne.
  destruct data as [|b data']; [congruence|].
  assert (Hbranch : compress && (512 <? Z.of_nat (List.length (b :: data')))
                    = false).
  { destruct Hsmall as [->|Hle]; [reflexivity|].
    apply andb_false_iff. right. apply Z.ltb_ge. exact Hle. }
  rewrite Hbranch, (decode_encode_utf8 _ _ Hc).
  cbn [fst snd access_log log_access]. split; reflexivity.
Qed.

(** X24: an empty text can be uploaded but not fetched: the upload answers
    201, and the GET handler then answers 404 ['Resource not found'],
    although the read went through and was counted, and it adds no line to
    the access log. *)
Theorem http_empty_resource_not_found E1 E2 log_fails srv id cat p compress
  addr :
  payload_write E1 = Done ->
  payload_read_fails E2 = false ->
  let up :=
    http_upload_resource E1 srv
      (Some (mkUpload (Some id) (Some (Text [])) cat p)) in
  let r :=
    http_get_resource gzip_compress E2 log_fails (snd up) id compress addr in
  fst up = (json_message "Resource uploaded successfully" id, 201) /\
  fst r = (json_error "Resource not found", 404) /\
  option_map access_count (PyDict.get id (resources (manager (snd r)))) =
    Some (Some 1) /\
  access_log (snd r) = access_log srv.
Proof.
  intros Hw Hread.
  assert (Hok : fst (store_resource E1 (manager srv) id (Text [])
                       (default "general" cat) (default 1 p)) = true).
  { now rewrite (store_resource_done E1 (manager srv) id (Text []) _ _ []
                   eq_refl Hw). }
  cbn zeta. rewrite (http_upload_created _ _ _ _ _ _ Hok). cbn [fst snd].
  split; [reflexivity|].
  destruct (get_after_store E1 E2 _ _ _ _ _ Hok Hread) as (data & Hc & Hget).
  cbn [to_bytes PyStr.encode_utf8] in Hc. apply some_inj in Hc. subst data.
  unfold http_get_resource. cbn [manager access_log]. rewrite Hget.
  cbn [fst snd manager access_log]. split; [reflexivity|].
  split; [|reflexivity].
  rewrite save_resources. cbn [resources with_resources].
  rewrite PyDictFacts.get_set_same. reflexivity.
Qed.

(** X25: a content that is not a string is stored pickled, and a pickle
    (protocol 2 and later opens with the byte 0x80) is not UTF-8: after
    such an upload the GET handler answers 500, unless compression is
    asked and the payload is above 512 bytes; the read is counted and
    logged all the same. *)
Theorem http_pickled_resource_unreadable E1 E2 srv id rest cat p compress
  addr :
  payload_write E1 = Done ->
  payload_read_fails E2 = false ->
  compress = false \/ Z.of_nat (List.length (x80 :: rest)) <= 512 ->
  let up :=
    http_upload_resource E1 srv
      (Some (mkUpload (Some id) (Some (Object (Some (x80 :: rest)))) cat p)) in
  let r := http_get_resource gzip_compress E2 false (snd up) id compress addr in
  fst up = (json_message "Resource uploaded successfully" id, 201) /\
  fst r = (json_error "Internal server error", 500) /\
  option_map access_count (PyDict.get id (resources (manager (snd r)))) =
    Some (Some 1) /\
  access_log (snd r) = access_log srv ++ [mkLog (isoformat (now E2)) id addr].
Proof.
  intros Hw Hread Hsmall.
  assert (Hok : fst (store_resource E1 (manager srv) id
                       (Object (Some (x80 :: rest)))
                       (default "general" cat) (default 1 p)) = true).
  { now rewrite (store_resource_done E1 (manager srv) id
                   (Object (Some (x80 :: rest))) _ _ (x80 :: rest)
                   eq_refl Hw). }
  cbn zeta. rewrite (http_upload_created _ _ _ _ _ _ Hok). cbn [fst snd].
  split; [reflexivity|].
  destruct (get_after_store E1 E2 _ _ _ _ _ Hok Hread) as (data & Hc & Hget).
  cbn [to_bytes] in Hc. apply some_inj in Hc. subst data.
  unfold http_get_resource. cbn [manager access_log]. rewrite Hget.
  assert (Hbranch : compress && (512 <? Z.of_nat (List.length (x80 :: rest)))
                    = false).
  { destruct Hsmall as [->|Hle]; [reflexivity|].
    apply andb_false_iff. right. apply Z.ltb_ge. exact Hle. }
  rewrite Hbranch.
  assert (Hdec : PyBytes.decode_utf8 (x80 :: rest) = None) by reflexivity.
  rewrite Hdec. cbn [fst snd manager access_log log_access].
  split; [reflexivity|]. split; [|reflexivity].
  rewrite save_resources. cbn [resources with_resources].
  rewrite PyDictFacts.get_set_same. reflexivity.
Qed.

End HandlersMore.

(** ** The further properties on sample runs *)

Module MoreRuns.
Import Sample MoreSamples.

#[local] Existing Instance example_lib.

Lemma sample_priorities id m :
  In (id, m) (resources three_stored) -> 1 <= default 3 (priority m).
Proof.
  intros Hin.
  pose proof (proj1 (forallb_forall
    (fun item : string * meta => 1 <=? default 3 (priority (snd item)))
    (resources three_stored)) eq_refl (id, m) Hin) as H.
  cbn [snd] in H. now apply Z.leb_le.
Defined.

Lemma sample_critical :
  exists id m, In (id, m) (resources three_stored) /\ priority m = Some 1.
Proof.
  exists "critical", (fresh_record (calm t0) [x01; x02; x03; x04] "config" 1).
  split; [now left | reflexivity].
Defined.

Lemma sample_trimmed :
  fst trimmed = optimization_completed 1 4 8 [mkCand "low_b" 92 4 4].
Proof. vm_compute. reflexivity. Defined.

Lemma store_survives_restart_witness :
  let st1 := snd (store_resource (calm t0) fresh "a" hello "general" 1) in
  exists data,
    to_bytes hello = Some data /\
    resources (restart (calm (t0 + 1)) st1) = resources st1 /\
    fst (get_resource (calm (t0 + 2)) (restart (calm (t0 + 1)) st1) "a")
      = Some data.
Proof.
  apply (store_survives_restart (calm t0) (calm (t0 + 1)) (calm (t0 + 2))
           fresh "a" hello "general" 1); reflexivity.
Defined.

Lemma unsaved_store_lost_on_restart_witness :
  let st1 :=
    restart (calm (t0 + 1))
      (snd (store_resource (ledger_write_refused t0) fresh "a" hello
              "general" 1)) in
  fst (get_resource (calm (t0 + 2)) st1 "a") = None /\
  get_version_info st1 "a" = None /\
  files st1 (_get_file_path st1 "a") <> None.
Proof.
  apply (unsaved_store_lost_on_restart (ledger_write_refused t0)
           (calm (t0 + 1)) (calm (t0 + 2)) fresh "a" hello "general" 1);
    [reflexivity | discriminate | reflexivity].
Defined.

Lemma version_info_after_store_witness :
  exists data,
    to_bytes blob = Some data /\
    get_version_info
      (snd (store_resource (calm (t0 + day)) one_stored "config_main" blob
              "data" 3)) "config_main" =
    Some (mkVersion "config_main" 1 (Some (sha256_hexdigest data))
                    (Z.of_nat (List.length data))
                    (Some (isoformat (now (calm (t0 + day))))) 3).
Proof.
  apply (version_info_after_store (calm (t0 + day)) one_stored "config_main"
           blob "data" 3). reflexivity.
Defined.

Lemma version_info_ignores_payload_witness :
  let m := fresh_record (calm t0) [x68; xc3; xa9] "config" 1 in
  get_version_info orphaned "config_main" =
    Some (mkVersion "config_main" (default 1 (version m)) (hash m)
                    (default 0 (size m)) (created m)
                    (default 3 (priority m))) /\
  fst (get_resource (calm (t0 + 1)) orphaned "config_main") = None /\
  get_version_info (snd (get_resource (calm (t0 + 1)) orphaned "config_main"))
                   "config_main" = None.
Proof.
  apply (version_info_ignores_payload (calm (t0 + 1)) orphaned "config_main");
    reflexivity.
Defined.

Lemma repeated_gets_count_witness :
  let Es := [calm (t0 + 1); calm (t0 + 2); calm (t0 + 3)] in
  let m := fresh_record (calm t0) [x68; xc3; xa9] "config" 1 in
  let st' := snd (get_many Es one_stored "config_main") in
  fst (get_many Es one_stored "config_main") =
    repeat (Some [x68; xc3; xa9]) (List.length Es) /\
  files st' (_get_file_path st' "config_main") = Some [x68; xc3; xa9] /\
  PyDict.get "config_main" (resources st') =
    Some (mkMeta (size m) (hash m) (category m) (priority m) (created m)
                 (last (map (fun E => Some (isoformat (now E))) Es)
                       (last_accessed m))
                 (Some (0 + Z.of_nat (List.length Es))) (version m)).
Proof.
  apply (repeated_gets_count
           [calm (t0 + 1); calm (t0 + 2); calm (t0 + 3)] one_stored
           "config_main"
           (fresh_record (calm t0) [x68; xc3; xa9] "config" 1) 0
           [x68; xc3; xa9]); try reflexivity.
  repeat constructor.
Defined.

Lemma get_without_access_count_witness :
  let m := mkMeta (Some 2) None (Some "data") (Some 3) None
                  (Some "2023-11-14T22:13:20") None None in
  let st' := snd (get_resource (calm (t0 + 1)) foreign "plain") in
  fst (get_resource (calm (t0 + 1)) foreign "plain") = None /\
  PyDict.get "plain" (resources st') =
    Some (mkMeta (size m) (hash m) (category m) (priority m) (created m)
                 (Some (isoformat (now (calm (t0 + 1))))) None (version m)) /\
  metadata_file st' = metadata_file foreign /\
  last_updated st' = last_updated foreign.
Proof.
  apply (get_without_access_count (calm (t0 + 1)) foreign "plain" _
           [x68; x69]); reflexivity.
Defined.


Lemma stats_match_listing_witness :
  total_resources (get_usage_stats three_stored) =
    Z.of_nat (List.length (list_resources three_stored None None 1 50)) /\
  total_size_bytes (get_usage_stats three_stored) =
    listed_sizes (list_resources three_stored None None 1 50).
Proof.
  apply (stats_match_listing three_stored 50). vm_compute. discriminate.
Defined.

Lemma list_resources_page_length_witness :
  let n :=
    Z.of_nat (List.length
                (filter (fun item => spec_selected (Some "data") None (snd item))
                        (resources three_stored))) in
  Z.of_nat (List.length (list_resources three_stored (Some "data") None 2 1)) =
  Z.min 1 (Z.max 0 (n - (2 - 1) * 1)).
Proof.
  apply (list_resources_page_length three_stored (Some "data") None 2 1); lia.
Defined.

Lemma list_resources_empty_pages_witness :
  list_resources three_stored None None 0 50 = [] /\
  list_resources three_stored None None 3 0 = [].
Proof.
  split.
  - apply (proj1 (list_resources_empty_pages three_stored None None 3 50)).
    lia.
  - apply (proj2 (list_resources_empty_pages three_stored None None 3 50)).
Defined.

Lemma list_resources_stable_witness :
  map ri_resource_id (list_resources tied None None 1 50) =
    ["third"; "first"; "second"] /\
  map ri_resource_id
      (filter (fun x => String.eqb (recency_key x) "2023-11-14T22:13:20")
              (listed None None (resources tied))) = ["first"; "second"] /\
  filter (fun x => String.eqb (recency_key x) "2023-11-14T22:13:20")
         (list_resources tied None None 1 50) =
  filter (fun x => String.eqb (recency_key x) "2023-11-14T22:13:20")
         (listed None None (resources tied)).
Proof.
  split; [vm_compute; reflexivity|]. split; [vm_compute; reflexivity|].
  apply (list_resources_stable tied None None 50). vm_compute.
  discriminate.
Defined.

Lemma optimize_report_adds_up_witness :
  1 = Z.of_nat (List.length [mkCand "low_b" 92 4 4]) /\
  4 = cand_sizes [mkCand "low_b" 92 4 4] /\
  8 = total_size (resources three_stored) - cand_sizes [mkCand "low_b" 92 4 4] /\
  StronglySorted priority_then_score [mkCand "low_b" 92 4 4].
Proof.
  exact (optimize_report_adds_up _ _ _ _ _ _ _ _ sample_trimmed).
Defined.


Lemma optimize_final_size_is_real_witness :
  let st' := snd trimmed in
  total_size (resources st') = 8 /\
  (8 <= default (100 * 1024 * 1024) (Some 10) ->
   optimize_storage (calm (t0 + 11 * day)) (all_calm (t0 + 11 * day)) st'
                    (Some 10) =
   (no_optimization_needed 8 (default (100 * 1024 * 1024) (Some 10)), st')).
Proof.
  exact (optimize_final_size_is_real _ _ (calm (t0 + 11 * day))
           (all_calm (t0 + 11 * day)) _ _ _ _ _ _ Runs.sample_keys
           sample_trimmed).
Defined.

Lemma optimize_reaches_budget_or_exhausts_witness :
  8 <= default (100 * 1024 * 1024) (Some 10) \/
  (forall id m,
      In (id, m) (resources three_stored) ->
      default 3 (priority m) <> 1 ->
      PyDict.get id (resources (snd trimmed)) = None).
Proof.
  apply (optimize_reaches_budget_or_exhausts (calm (t0 + 10 * day))
           (all_calm (t0 + 10 * day)) three_stored (Some 10) 1 4 8
           [mkCand "low_b" 92 4 4] Runs.sample_keys);
    [reflexivity | exact sample_trimmed].
Defined.

Lemma optimize_fails_on_bad_timestamp_witness :
  optimize_storage (calm t0) (all_calm t0) foreign (Some 1) =
  (optimization_failed, foreign).
Proof.
  apply (optimize_fails_on_bad_timestamp (calm t0) (all_calm t0) foreign
           (Some 1) "dated"
           (mkMeta (Some 5) None None None None (Some "yesterday") (Some 0)
                   None));
    [reflexivity | right; now left | reflexivity].
Defined.

Lemma optimize_zero_budget_fails_witness :
  optimize_storage (calm (t0 + 10 * day)) (all_calm (t0 + 10 * day))
                   three_stored (Some 0) =
  (optimization_failed, three_stored).
Proof.
  apply (optimize_zero_budget_fails (calm (t0 + 10 * day))
           (all_calm (t0 + 10 * day)) three_stored);
    [reflexivity | exact Runs.sample_timestamps_parse
     | exact sample_priorities | exact sample_critical].
Defined.

Lemma optimize_severe_overage_deletes_critical_first_witness :
  exists n freed final c rest,
    fst (optimize_storage (calm (t0 + 10 * day)) (all_calm (t0 + 10 * day))
           three_stored (Some 8)) =
      optimization_completed n freed final (c :: rest) /\
    cand_priority c = 1.
Proof.
  apply (optimize_severe_overage_deletes_critical_first
           (calm (t0 + 10 * day)) (all_calm (t0 + 10 * day)) three_stored
           (Some 8));
    [reflexivity | vm_compute; discriminate | reflexivity
     | exact Runs.sample_sizes
     | exact Runs.sample_timestamps_parse | exact sample_priorities
     | exact sample_critical | reflexivity].
Defined.

Lemma create_demo_keeps_existing_witness :
  let m := fresh_record (calm t0) [x68; xc3; xa9] "config" 1 in
  let st' := create_demo_resources (all_calm (t0 + day)) one_stored in
  PyDict.get "config_main" (resources st') = Some m /\
  files st' (_get_file_path st' "config_main") =
    files one_stored (_get_file_path one_stored "config_main").
Proof.
  intros m st'.
  destruct (create_demo_keeps_existing (all_calm (t0 + day)) one_stored
              "config_main" m eq_refl) as [Hrec Hfile].
  split; [exact Hrec | exact (Hfile eq_refl)].
Defined.

Lemma create_demo_installs_missing_witness :
  let c :=
    literal
      "Sample data for testing purposes. This could be a larger dataset." in
  let st' := create_demo_resources (all_calm (t0 + day)) one_stored in
  exists data,
    to_bytes c = Some data /\
    PyDict.get "data_sample" (resources st') =
      Some (fresh_record (all_calm (t0 + day) "data_sample") data "data" 3) /\
    files st' (_get_file_path st' "data_sample") = Some data.
Proof.
  apply (create_demo_installs_missing (all_calm (t0 + day)) one_stored
           "data_sample" _ "data" 3);
    [right; right; now left | reflexivity | reflexivity].
Defined.

(** A request whose body is not JSON is answered 500; a body that is the
    JSON [null] is answered 400. *)
Example upload_without_fields :
  fst (http_upload_request (calm t0) empty_server NotJson) =
    (json_error "Internal server error", 500) /\
  fst (http_upload_request (calm t0) empty_server (Json None)) =
    (json_error "Missing required fields: resource_id, content", 400).
Proof. split; reflexivity. Qed.

Lemma http_upload_get_roundtrip_witness :
  let srv1 := snd (http_upload_resource (calm t0) empty_server upload_hello) in
  exists data,
    PyStr.encode_utf8 [104; 233]%N = Some data /\
    (true = false \/ Z.of_nat (List.length data) <= 512 ->
     let r := http_get_resource no_compression (calm (t0 + 1)) false srv1
                "greeting" true "10.0.0.7" in
     fst r = (json_resource "greeting" [104; 233]%N
                (Z.of_nat (List.length data)), 200) /\
     access_log (snd r) =
       access_log empty_server
       ++ [mkLog (isoformat (now (calm (t0 + 1)))) "greeting" "10.0.0.7"]).
Proof.
  apply (http_upload_get_roundtrip no_compression (calm t0) (calm (t0 + 1))
           empty_server "greeting" [104; 233]%N None None true "10.0.0.7");
    [reflexivity | discriminate | reflexivity].
Defined.

Lemma http_empty_resource_not_found_witness :
  let up :=
    http_upload_resource (calm t0) empty_server
      (Some (mkUpload (Some "void") (Some (Text [])) None None)) in
  let r :=
    http_get_resource no_compression (calm (t0 + 1)) false (snd up) "void"
      false "10.0.0.7" in
  fst up = (json_message "Resource uploaded successfully" "void", 201) /\
  fst r = (json_error "Resource not found", 404) /\
  option_map access_count (PyDict.get "void" (resources (manager (snd r)))) =
    Some (Some 1) /\
  access_log (snd r) = access_log empty_server.
Proof.
  apply (http_empty_resource_not_found no_compression (calm t0)
           (calm (t0 + 1)) false empty_server "void" None None false
           "10.0.0.7"); reflexivity.
Defined.

Lemma http_pickled_resource_unreadable_witness :
  let up :=
    http_upload_resource (calm t0) empty_server
      (Some (mkUpload (Some "answer")
               (Some (Object (Some [x80; x04; x4b; x2a; x2e]))) None None)) in
  let r :=
    http_get_resource no_compression (calm (t0 + 1)) false (snd up) "answer"
      true "10.0.0.7" in
  fst up = (json_message "Resource uploaded successfully" "answer", 201) /\
  fst r = (json_error "Internal server error", 500) /\
  option_map access_count (PyDict.get "answer" (resources (manager (snd r)))) =
    Some (Some 1) /\
  access_log (snd r) =
    access_log empty_server
    ++ [mkLog (isoformat (now (calm (t0 + 1)))) "answer" "10.0.0.7"].
Proof.
  apply (http_pickled_resource_unreadable no_compression (calm t0)
           (calm (t0 + 1)) empty_server "answer" [x04; x4b; x2a; x2e] None
           None true "10.0.0.7");
    [reflexivity | reflexivity | right; vm_compute; discriminate].
Defined.

End MoreRuns.
